(** * onefilellm web front end ([extras/web_app.py]): model and properties

    The Flask application has three functions: [_is_safe_url] (the SSRF
    guard), [index] (the request handler for [/]) and [download] (the
    handler for [/download]).  They are embedded below over a model of the
    Python standard-library calls they make ([str] methods,
    [urllib.parse.urlparse], [ipaddress.ip_address], [os.path.basename],
    [os.path.join]); the library model follows CPython 3.11 for strings
    whose code points are below 256, which is what a Rocq [string] holds.
    The retrieval backends, the normalisation routine, the token counter,
    the clipboard and the file writes of [index] are collaborators taken as
    parameters. *)

From Stdlib Require Import ZArith Lia Ascii List Bool.
From stdpp Require Import base option list gmap strings.

Local Open Scope Z_scope.

(** ** Python [str] methods used by the application *)

Module Str.

Definition ord (c : ascii) : Z := Z.of_N (N_of_ascii c).

Definition between (lo hi : Z) (c : ascii) : bool :=
  (lo <=? ord c) && (ord c <=? hi).

(** [c.isascii()] *)
Definition isascii (c : ascii) : bool := ord c <? 128.

(** [c.isalpha()] for an ASCII character (only used behind [isascii]). *)
Definition isalpha_ascii (c : ascii) : bool :=
  between 65 90 c || between 97 122 c.

Definition is_ascii_digit (c : ascii) : bool := between 48 57 c.

(** A character on which [str.isdigit] holds: the ASCII digits and the
    superscripts U+00B2, U+00B3 and U+00B9. *)
Definition is_digit_char (c : ascii) : bool :=
  is_ascii_digit c || (ord c =? 178) || (ord c =? 179) || (ord c =? 185).

(** Python's whitespace ([str.strip()] without argument): U+0009..U+000D,
    U+001C..U+0020, U+0085 and U+00A0. *)
Definition is_space (c : ascii) : bool :=
  between 9 13 c || between 28 32 c || (ord c =? 133) || (ord c =? 160).

(** [c.lower()]: the ASCII capitals and U+00C0..U+00DE except U+00D7. *)
Definition lower_char (c : ascii) : ascii :=
  if between 65 90 c || (between 192 222 c && negb (ord c =? 215))
  then ascii_of_N (N_of_ascii c + 32) else c.

Fixpoint all_chars (p : ascii -> bool) (s : string) : bool :=
  match s with
  | EmptyString => true
  | String c s' => p c && all_chars p s'
  end.

Fixpoint lower (s : string) : string :=
  match s with
  | EmptyString => EmptyString
  | String c s' => String (lower_char c) (lower s')
  end.

Definition is_empty (s : string) : bool :=
  match s with EmptyString => true | _ => false end.

(** [s.isdigit()]: at least one character, all of them digits. *)
Definition isdigit (s : string) : bool :=
  negb (is_empty s) && all_chars is_digit_char s.

(** [s.startswith(p)] *)
Definition startswith (p s : string) : bool := String.prefix p s.

(** [sub in s] *)
Fixpoint contains (sub s : string) : bool :=
  String.prefix sub s ||
  match s with
  | EmptyString => false
  | String _ s' => contains sub s'
  end.

(** [c in s] for a single character. *)
Fixpoint has_char (c : ascii) (s : string) : bool :=
  match s with
  | EmptyString => false
  | String a s' => Ascii.eqb a c || has_char c s'
  end.

(** [s[n:]] *)
Fixpoint skip (n : nat) (s : string) : string :=
  match n, s with
  | S n', String _ s' => skip n' s'
  | _, _ => s
  end.

(** [s.lstrip(chars)], the set of characters given as a predicate. *)
Fixpoint lstrip_by (p : ascii -> bool) (s : string) : string :=
  match s with
  | EmptyString => EmptyString
  | String c s' => if p c then lstrip_by p s' else s
  end.

Fixpoint rstrip_by (p : ascii -> bool) (s : string) : string :=
  match s with
  | EmptyString => EmptyString
  | String c s' =>
      match rstrip_by p s' with
      | EmptyString => if p c then EmptyString else String c EmptyString
      | r => String c r
      end
  end.

(** [s.strip()] *)
Definition strip (s : string) : string := rstrip_by is_space (lstrip_by is_space s).

(** [s.replace(c, "")] for a set of characters. *)
Fixpoint remove_by (p : ascii -> bool) (s : string) : string :=
  match s with
  | EmptyString => EmptyString
  | String c s' => if p c then remove_by p s' else String c (remove_by p s')
  end.

(** [s.partition(c)]: text before the first [c], whether [c] was found, and
    the text after it; [(s, false, "")] when [c] does not occur. *)
Fixpoint partition (c : ascii) (s : string) : string * bool * string :=
  match s with
  | EmptyString => (EmptyString, false, EmptyString)
  | String a s' =>
      if Ascii.eqb a c then (EmptyString, true, s')
      else let '(h, f, t) := partition c s' in (String a h, f, t)
  end.

(** [s.rpartition(c)]: split at the last [c]; [("", false, s)] when [c] does
    not occur. *)
Fixpoint rpartition (c : ascii) (s : string) : string * bool * string :=
  match s with
  | EmptyString => (EmptyString, false, EmptyString)
  | String a s' =>
      let '(h, f, t) := rpartition c s' in
      if f then (String a h, true, t)
      else if Ascii.eqb a c then (EmptyString, true, s')
      else (EmptyString, false, String a t)
  end.

(** [s.split(c)] *)
Fixpoint split (c : ascii) (s : string) : list string :=
  match s with
  | EmptyString => [EmptyString]
  | String a s' =>
      if Ascii.eqb a c then EmptyString :: split c s'
      else match split c s' with
           | h :: t => String a h :: t
           | [] => [String a EmptyString]
           end
  end.

(** ["\n".join(l)] and friends. *)
Fixpoint join (sep : string) (l : list string) : string :=
  match l with
  | [] => EmptyString
  | [x] => x
  | x :: l' => x +:+ sep +:+ join sep l'
  end.

Definition hex_digit (d : Z) : ascii :=
  ascii_of_N (Z.to_N (if d <? 10 then 48 + d else 87 + d)).

(** ['%02x' % n] for [0 <= n < 256]. *)
Definition hex2 (n : Z) : string :=
  String (hex_digit (n / 16)) (String (hex_digit (n mod 16)) EmptyString).

(** Whether [repr] prints the character as it is: the printable ASCII
    characters and U+00A1..U+00FF except the soft hyphen U+00AD. *)
Definition is_printable (c : ascii) : bool :=
  between 32 126 c || (between 161 255 c && negb (ord c =? 173)).

Definition dquote : ascii := ascii_of_N 34.

Fixpoint repr_body (quote : ascii) (s : string) : string :=
  match s with
  | EmptyString => EmptyString
  | String c s' =>
      (if Ascii.eqb c quote || Ascii.eqb c "\"%char then String "\"%char (String c EmptyString)
       else if ord c =? 9 then "\t"
       else if ord c =? 10 then "\n"
       else if ord c =? 13 then "\r"
       else if is_printable c then String c EmptyString
       else "\x" +:+ hex2 (ord c))
      +:+ repr_body quote s'
  end.

(** [repr(s)]: single quotes unless the text has a single quote and no
    double quote. *)
Definition repr (s : string) : string :=
  let quote := if has_char "'"%char s && negb (has_char dquote s)
               then dquote else "'"%char in
  String quote (repr_body quote s +:+ String quote EmptyString).

End Str.

(** ** Exceptions and fallible library calls *)

(** A raised exception that [except Exception] catches, with [str(e)].
    [ValueError] stands for that class and its subclasses (what
    [except ValueError] catches), [OtherException] for every other class.
    Signals outside [Exception] (interrupts, interpreter exit) are not
    modelled. *)
Inductive exn : Type :=
| ValueError (msg : string)
| OtherException (msg : string).

(** [str(e)] *)
Definition exn_str (e : exn) : string :=
  match e with ValueError m | OtherException m => m end.

(** The result of a pure library call: a value or a raised exception. *)
Inductive py (A : Type) : Type :=
| Returns (a : A)
| Raises (e : exn).
Arguments Returns {A} a.
Arguments Raises {A} e.

#[global] Instance py_ret : MRet py := fun A a => Returns a.
#[global] Instance py_bind : MBind py := fun A B k m =>
  match m with
  | Returns a => k a
  | Raises e => Raises e
  end.

(** ** [ipaddress]: parsing and classification of IP literals *)

Module ipaddress.

Inductive IPAddress : Type :=
| IPv4Address (ip : Z)
| IPv6Address (ip : Z) (scope_id : option string).

Definition digit_value (c : ascii) : Z :=
  if Str.between 48 57 c then Str.ord c - 48
  else if Str.between 97 102 c then Str.ord c - 87
  else Str.ord c - 55.

(** [int(s, base)] on a string of digits of that base. *)
Definition int_of (base : Z) (s : string) : Z :=
  fold_left (fun acc c => base * acc + digit_value c) (String.list_ascii_of_string s) 0.

Definition first_is (c : ascii) (s : string) : bool :=
  match s with
  | String a _ => Ascii.eqb a c
  | EmptyString => false
  end.

(** [_BaseV4._parse_octet]; [None] when the source raises [ValueError]. *)
Definition _parse_octet (octet_str : string) : option Z :=
  if Str.is_empty octet_str then None
  else if negb (Str.all_chars Str.isascii octet_str && Str.isdigit octet_str) then None
  else if 3 <? Z.of_nat (String.length octet_str) then None
  else if negb (String.eqb octet_str "0") && first_is "0" octet_str then None
  else
    let octet_int := int_of 10 octet_str in
    if 255 <? octet_int then None else Some octet_int.

(** [int.from_bytes(octets, 'big')] *)
Definition from_bytes (l : list Z) : Z :=
  fold_left (fun acc b => Z.lor (Z.shiftl acc 8) b) l 0.

(** [_BaseV4._ip_int_from_string]; [None] for [AddressValueError]. *)
Definition v4_int_from_string (ip_str : string) : option Z :=
  if Str.is_empty ip_str then None
  else
    let octets := Str.split "." ip_str in
    if negb (Nat.eqb (length octets) 4) then None
    else from_bytes <$> mapM _parse_octet octets.

(** [IPv4Address(addr_str)._ip] *)
Definition v4_address (addr_str : string) : option Z :=
  if Str.has_char "/" addr_str then None else v4_int_from_string addr_str.

Definition is_hex_digit (c : ascii) : bool :=
  Str.between 48 57 c || Str.between 65 70 c || Str.between 97 102 c.

(** [_BaseV6._parse_hextet]; the final [int(hextet_str, 16)] raises on the
    empty string. *)
Definition _parse_hextet (hextet_str : string) : option Z :=
  if negb (Str.all_chars is_hex_digit hextet_str) then None
  else if 4 <? Z.of_nat (String.length hextet_str) then None
  else if Str.is_empty hextet_str then None
  else Some (int_of 16 hextet_str).

(** ['%x' % v] for [0 <= v < 65536]. *)
Definition hex_of (v : Z) : string :=
  let digits :=
    String (Str.hex_digit (v / 4096))
      (String (Str.hex_digit (v / 256 mod 16)) (Str.hex2 (v mod 256))) in
  match Str.lstrip_by (fun c => Ascii.eqb c "0") digits with
  | EmptyString => "0"
  | s => s
  end.

(** The hextets are folded into the address in order: [ip_int <<= 16;
    ip_int |= _parse_hextet(part)]. *)
Fixpoint fold_hextets (ip_int : Z) (parts : list string) : option Z :=
  match parts with
  | [] => Some ip_int
  | p :: rest =>
      match _parse_hextet p with
      | Some h => fold_hextets (Z.lor (Z.shiftl ip_int 16) h) rest
      | None => None
      end
  end.

Definition _HEXTET_COUNT : Z := 8.

(** The indices [i] of [range(1, len(parts) - 1)] with [parts[i]] empty. *)
Definition empty_inner (parts : list string) : list nat :=
  filter (fun i => Str.is_empty (nth i parts EmptyString) = true)
         (seq 1 (length parts - 2)).

(** [_BaseV6._ip_int_from_string]; [None] for [AddressValueError]. *)
Definition v6_int_from_string (ip_str : string) : option Z :=
  if Str.is_empty ip_str then None
  else
    let parts := Str.split ":" ip_str in
    if Z.of_nat (length parts) <? 3 then None
    else
      (* an IPv4-style suffix is converted to two hextets *)
      parts ← (if Str.has_char "." (List.last parts EmptyString) then
                 ipv4_int ← v4_address (List.last parts EmptyString);
                 Some (removelast parts ++
                       [hex_of (Z.land (Z.shiftr ipv4_int 16) 65535);
                        hex_of (Z.land ipv4_int 65535)])
               else Some parts);
      let n := Z.of_nat (length parts) in
      if _HEXTET_COUNT + 1 <? n then None
      else
        let head_empty := Str.is_empty (hd EmptyString parts) in
        let tail_empty := Str.is_empty (List.last parts EmptyString) in
        '(parts_hi, parts_lo, parts_skipped) ←
          match empty_inner parts with
          | _ :: _ :: _ => None
          | [skip_index] =>
              let parts_hi := Z.of_nat skip_index in
              let parts_lo := n - Z.of_nat skip_index - 1 in
              let parts_hi := if head_empty then parts_hi - 1 else parts_hi in
              if head_empty && negb (parts_hi =? 0) then None
              else
                let parts_lo := if tail_empty then parts_lo - 1 else parts_lo in
                if tail_empty && negb (parts_lo =? 0) then None
                else
                  let parts_skipped := _HEXTET_COUNT - (parts_hi + parts_lo) in
                  if parts_skipped <? 1 then None
                  else Some (parts_hi, parts_lo, parts_skipped)
          | [] =>
              if negb (n =? _HEXTET_COUNT) then None
              else if head_empty then None
              else if tail_empty then None
              else Some (n, 0, 0)
          end;
        ip_int ← fold_hextets 0 (take (Z.to_nat parts_hi) parts);
        fold_hextets (Z.shiftl ip_int (16 * parts_skipped))
                     (drop (Z.to_nat (n - parts_lo)) parts).

(** [IPv6Address._split_scope_id] *)
Definition _split_scope_id (ip_str : string) : option (string * option string) :=
  let '(addr, sep, scope_id) := Str.partition "%" ip_str in
  if negb sep then Some (addr, None)
  else if Str.is_empty scope_id || Str.has_char "%" scope_id then None
  else Some (addr, Some scope_id).

(** [IPv6Address(addr_str)] *)
Definition v6_address (addr_str : string) : option (Z * option string) :=
  if Str.has_char "/" addr_str then None
  else
    '(addr_str, scope_id) ← _split_scope_id addr_str;
    ip ← v6_int_from_string addr_str;
    Some (ip, scope_id).

(** [ipaddress.ip_address(address)] for a string. *)
Definition ip_address (address : string) : py IPAddress :=
  match v4_address address with
  | Some ip => Returns (IPv4Address ip)
  | None =>
      match v6_address address with
      | Some (ip, scope_id) => Returns (IPv6Address ip scope_id)
      | None =>
          Raises (ValueError
            (Str.repr address +:+ " does not appear to be an IPv4 or IPv6 address"))
      end
  end.

(** A network, as [IPv4Network] and [IPv6Network] hold it. *)
Record Network : Type := { network_address : Z; prefixlen : Z }.

(** [IPv4Network('a.b.c.d/p')] and [IPv6Network('x::/p')] for the constant
    tables below. *)
Definition IPv4Network (addr : string) (p : Z) : Network :=
  {| network_address := default 0 (v4_int_from_string addr); prefixlen := p |}.
Definition IPv6Network (addr : string) (p : Z) : Network :=
  {| network_address := default 0 (v6_int_from_string addr); prefixlen := p |}.

(** [_ip_int_from_prefix]: [_ALL_ONES ^ (_ALL_ONES >> prefixlen)] *)
Definition netmask (bits p : Z) : Z :=
  Z.lxor (Z.ones bits) (Z.shiftr (Z.ones bits) p).

(** [_BaseNetwork.__contains__] for an address of the same version. *)
Definition net_contains (bits : Z) (net : Network) (ip : Z) : bool :=
  Z.land ip (netmask bits (prefixlen net)) =? network_address net.

Module _IPv4Constants.
Definition _linklocal_network := IPv4Network "169.254.0.0" 16.
Definition _loopback_network := IPv4Network "127.0.0.0" 8.
Definition _private_networks : list Network :=
  [ IPv4Network "0.0.0.0" 8;
    IPv4Network "10.0.0.0" 8;
    IPv4Network "127.0.0.0" 8;
    IPv4Network "169.254.0.0" 16;
    IPv4Network "172.16.0.0" 12;
    IPv4Network "192.0.0.0" 24;
    IPv4Network "192.0.0.170" 31;
    IPv4Network "192.0.2.0" 24;
    IPv4Network "192.168.0.0" 16;
    IPv4Network "198.18.0.0" 15;
    IPv4Network "198.51.100.0" 24;
    IPv4Network "203.0.113.0" 24;
    IPv4Network "240.0.0.0" 4;
    IPv4Network "255.255.255.255" 32 ].
Definition _private_networks_exceptions : list Network :=
  [ IPv4Network "192.0.0.9" 32;
    IPv4Network "192.0.0.10" 32 ].
Definition _reserved_network := IPv4Network "240.0.0.0" 4.
End _IPv4Constants.

Module _IPv6Constants.
Definition _linklocal_network := IPv6Network "fe80::" 10.
Definition _private_networks : list Network :=
  [ IPv6Network "::1" 128;
    IPv6Network "::" 128;
    IPv6Network "::ffff:0:0" 96;
    IPv6Network "64:ff9b:1::" 48;
    IPv6Network "100::" 64;
    IPv6Network "2001::" 23;
    IPv6Network "2001:db8::" 32;
    IPv6Network "2002::" 16;
    IPv6Network "fc00::" 7;
    IPv6Network "fe80::" 10 ].
Definition _private_networks_exceptions : list Network :=
  [ IPv6Network "2001:1::1" 128;
    IPv6Network "2001:1::2" 128;
    IPv6Network "2001:3::" 32;
    IPv6Network "2001:4:112::" 48;
    IPv6Network "2001:20::" 28;
    IPv6Network "2001:30::" 28 ].
Definition _reserved_networks : list Network :=
  [ IPv6Network "::" 8; IPv6Network "100::" 8;
    IPv6Network "200::" 7; IPv6Network "400::" 6;
    IPv6Network "800::" 5; IPv6Network "1000::" 4;
    IPv6Network "4000::" 3; IPv6Network "6000::" 3;
    IPv6Network "8000::" 3; IPv6Network "A000::" 3;
    IPv6Network "C000::" 3; IPv6Network "E000::" 4;
    IPv6Network "F000::" 5; IPv6Network "F800::" 6;
    IPv6Network "FE00::" 9 ].
End _IPv6Constants.

Definition in_any (bits : Z) (nets : list Network) (ip : Z) : bool :=
  existsb (fun net => net_contains bits net ip) nets.

(** [IPv4Address.is_private] *)
Definition v4_is_private (ip : Z) : bool :=
  in_any 32 _IPv4Constants._private_networks ip
  && negb (in_any 32 _IPv4Constants._private_networks_exceptions ip).

(** [IPv6Address.ipv4_mapped] *)
Definition ipv4_mapped (ip : Z) : option Z :=
  if negb (Z.shiftr ip 32 =? 65535) then None else Some (Z.land ip 4294967295).

Definition is_private (a : IPAddress) : bool :=
  match a with
  | IPv4Address ip => v4_is_private ip
  | IPv6Address ip _ =>
      match ipv4_mapped ip with
      | Some ip4 => v4_is_private ip4
      | None =>
          in_any 128 _IPv6Constants._private_networks ip
          && negb (in_any 128 _IPv6Constants._private_networks_exceptions ip)
      end
  end.

Definition is_loopback (a : IPAddress) : bool :=
  match a with
  | IPv4Address ip => net_contains 32 _IPv4Constants._loopback_network ip
  | IPv6Address ip _ => ip =? 1
  end.

Definition is_link_local (a : IPAddress) : bool :=
  match a with
  | IPv4Address ip => net_contains 32 _IPv4Constants._linklocal_network ip
  | IPv6Address ip _ => net_contains 128 _IPv6Constants._linklocal_network ip
  end.

Definition is_reserved (a : IPAddress) : bool :=
  match a with
  | IPv4Address ip => net_contains 32 _IPv4Constants._reserved_network ip
  | IPv6Address ip _ => in_any 128 _IPv6Constants._reserved_networks ip
  end.

End ipaddress.

(** ** [urllib.parse]: the scheme and host of a URL *)

Module urllib.

(** The two components of [urlparse]'s result that the application reads
    (it uses [.scheme] and [.hostname], the latter computed from the
    network location). *)
Record ParseResult : Type := { scheme : string; netloc : string }.

(** [_WHATWG_C0_CONTROL_OR_SPACE] *)
Definition is_c0_or_space (c : ascii) : bool := Str.ord c <=? 32.

(** [_UNSAFE_URL_BYTES_TO_REMOVE]: tab, carriage return, line feed. *)
Definition is_unsafe_byte (c : ascii) : bool :=
  (Str.ord c =? 9) || (Str.ord c =? 13) || (Str.ord c =? 10).

(** [scheme_chars] *)
Definition is_scheme_char (c : ascii) : bool :=
  Str.isalpha_ascii c || Str.is_ascii_digit c || Str.has_char c "+-.".

Definition is_netloc_delim (c : ascii) : bool := Str.has_char c "/?#".

(** [_splitnetloc(url, 2)[0]], given [url[2:]]. *)
Fixpoint _splitnetloc (rest : string) : string :=
  match rest with
  | EmptyString => EmptyString
  | String c s => if is_netloc_delim c then EmptyString else String c (_splitnetloc s)
  end.

(** The regular expression [\Av[a-fA-F0-9]+\..+\Z] of
    [_check_bracketed_host], on a text that starts with [v]. *)
Definition is_ipvfuture (hostname : string) : bool :=
  match hostname with
  | String _ (String d _ as digits) =>
      ipaddress.is_hex_digit d
      && match Str.lstrip_by ipaddress.is_hex_digit digits with
         | String "." tail =>
             negb (Str.is_empty tail) && negb (Str.has_char (ascii_of_N 10) tail)
         | _ => false
         end
  | _ => false
  end.

Definition _check_bracketed_host (hostname : string) : py unit :=
  if Str.startswith "v" hostname then
    if is_ipvfuture hostname then Returns tt
    else Raises (ValueError "IPvFuture address is invalid")
  else
    ip ← ipaddress.ip_address hostname;
    match ip with
    | ipaddress.IPv4Address _ =>
        Raises (ValueError "An IPv4 address cannot be in brackets")
    | ipaddress.IPv6Address _ _ => Returns tt
    end.

Definition _check_bracketed_netloc (netloc : string) : py unit :=
  let '(_, _, hostname_and_port) := Str.rpartition "@" netloc in
  let '(before_bracket, have_open_br, bracketed) := Str.partition "[" hostname_and_port in
  if have_open_br then
    if negb (Str.is_empty before_bracket) then Raises (ValueError "Invalid IPv6 URL")
    else
      let '(hostname, _, port) := Str.partition "]" bracketed in
      if negb (Str.is_empty port) && negb (Str.startswith ":" port)
      then Raises (ValueError "Invalid IPv6 URL")
      else _check_bracketed_host hostname
  else
    let '(hostname, _, _) := Str.partition ":" hostname_and_port in
    _check_bracketed_host hostname.

(** [url[:i].lower(), url[i+1:]] when the text before the first colon is a
    scheme, otherwise no scheme and the whole text. *)
Definition split_scheme (url : string) : string * string :=
  let '(before, found, after) := Str.partition ":" url in
  match before with
  | String c _ =>
      if found && Str.isascii c && Str.isalpha_ascii c
         && Str.all_chars is_scheme_char before
      then (Str.lower before, after)
      else (EmptyString, url)
  | EmptyString => (EmptyString, url)
  end.

(** [urlsplit(url)].  [_checknetloc] is left out: it raises only when NFKC
    normalisation of the network location produces one of [/?#@:], which no
    code point below 256 does. *)
Definition urlsplit (url : string) : py ParseResult :=
  let url := Str.lstrip_by is_c0_or_space url in
  let url := Str.remove_by is_unsafe_byte url in
  let '(scheme, url) := split_scheme url in
  if Str.startswith "//" url then
    let netloc := _splitnetloc (Str.skip 2 url) in
    let open_br := Str.has_char "[" netloc in
    let close_br := Str.has_char "]" netloc in
    if (open_br && negb close_br) || (close_br && negb open_br)
    then Raises (ValueError "Invalid IPv6 URL")
    else
      _ ← (if open_br && close_br then _check_bracketed_netloc netloc else Returns tt);
      Returns {| scheme := scheme; netloc := netloc |}
  else Returns {| scheme := scheme; netloc := EmptyString |}.

(** [urlparse(url)]: [urlsplit] followed by the separation of the path
    parameters, which touches neither the scheme nor the network location. *)
Definition urlparse (url : string) : py ParseResult := urlsplit url.

(** [_hostinfo[0]] *)
Definition _hostinfo_hostname (netloc : string) : string :=
  let '(_, _, hostinfo) := Str.rpartition "@" netloc in
  let '(_, have_open_br, bracketed) := Str.partition "[" hostinfo in
  if have_open_br then
    let '(hostname, _, _) := Str.partition "]" bracketed in hostname
  else
    let '(hostname, _, _) := Str.partition ":" hostinfo in hostname.

(** The [hostname] property: [None] when there is no host, otherwise the host
    in lower case with a zone identifier left as written. *)
Definition hostname (r : ParseResult) : option string :=
  let hostname := _hostinfo_hostname (netloc r) in
  if Str.is_empty hostname then None
  else
    let '(hostname, percent, zone) := Str.partition "%" hostname in
    Some (Str.lower hostname +:+ (if percent then "%" else EmptyString) +:+ zone).

End urllib.

(** ** [os.path] (POSIX flavour) *)

Module os_path.

(** [basename(p)]: the text after the last slash. *)
Definition basename (p : string) : string := (Str.rpartition "/" p).2.

Fixpoint endswith_char (c : ascii) (s : string) : bool :=
  match s with
  | EmptyString => false
  | String a EmptyString => Ascii.eqb a c
  | String _ s' => endswith_char c s'
  end.

(** The separator [join] inserts after [a]: none when [a] is empty or ends
    with a slash. *)
Definition sep_after (a : string) : string :=
  if Str.is_empty a || endswith_char "/" a then EmptyString else "/".

(** [join(a, b)] *)
Definition join (a b : string) : string :=
  if Str.startswith "/" b then b else a +:+ sep_after a +:+ b.

End os_path.

(** ** The application, [extras/web_app.py] *)

Module web_app.

(** [try: body except Exception: handler] on a pure computation. *)
Definition try_except {A : Type} (body : py A) (handler : exn -> py A) : py A :=
  match body with
  | Returns a => Returns a
  | Raises e => handler e
  end.

(** [_is_safe_url(url)]: reject URLs targeting private or internal
    networks.  The inner [try] catches [ValueError] alone, the outer one
    every exception. *)
Definition _is_safe_url (url : string) : py bool :=
  try_except
    (parsed ← urllib.urlparse url;
     match urllib.hostname parsed with
     | None => Returns false
     | Some hostname =>
         if Str.is_empty hostname then Returns false
         else if bool_decide (hostname ∈ ["localhost"; "metadata.google.internal"])
         then Returns false
         else
           match ipaddress.ip_address hostname with
           | Returns addr =>
               if ipaddress.is_private addr || ipaddress.is_loopback addr
                  || ipaddress.is_link_local addr || ipaddress.is_reserved addr
               then Returns false
               else Returns true
           | Raises (ValueError _) => Returns true
           | Raises e => Raises e
           end
     end)
    (fun _ => Returns false).

(** The incoming Flask request: its method, form fields and query
    arguments. *)
Record Request : Type := {
  method : string;
  form : gmap string string;
  args : gmap string string
}.

(** What [render_template_string(template, ...)] is given: the page shows
    [output] and the two token counts when they are passed.  Rendering the
    fixed template is taken to succeed always. *)
Record Response : Type := render_template_string {
  output : option string;
  uncompressed_token_count : option Z;
  compressed_token_count : option Z
}.

(** The text retrieval functions imported from [onefilellm]. *)
Inductive Backend : Type :=
| process_github_repo
| process_github_pull_request
| process_github_issue
| process_arxiv_pdf
| fetch_youtube_transcript
| process_doi_or_pmid.

(** The dict [crawl_and_extract_text] returns. *)
Record CrawlResult : Type := {
  content : string;
  processed_urls : list string
}.

(** A call the handler makes to a collaborator: a retrieval backend, the
    crawler, a file write ([with open(path, "w") as f: f.write(text)]),
    [preprocess_text], [safe_file_read], [get_token_count] or
    [pyperclip.copy]. *)
Inductive Call : Type :=
| Retrieve (backend : Backend) (input_path : string)
| crawl_and_extract_text (url : string) (max_depth : Z) (include_pdfs ignore_epubs : bool)
| write_file (path text : string)
| preprocess_text (input_file output_file : string)
| safe_file_read (path : string)
| get_token_count (text : string)
| pyperclip_copy (text : string).

(** The type of what each call returns. *)
Definition answer (c : Call) : Type :=
  match c with
  | Retrieve _ _ => string
  | crawl_and_extract_text _ _ _ _ => CrawlResult
  | write_file _ _ => unit
  | preprocess_text _ _ => unit
  | safe_file_read _ => string
  | get_token_count _ => Z
  | pyperclip_copy _ => unit
  end.

(** One entry of the log of a request: the call made and, when it raised,
    the exception. *)
Record Event : Type := { ev_call : Call; ev_raised : option exn }.

(** How a block of statements ends: it falls through with a value, it
    executes [return r], or it raises. *)
Inductive outcome (A : Type) : Type :=
| Normal (a : A)
| Return (r : Response)
| Raise (e : exn).
Arguments Normal {A} a.
Arguments Return {A} r.
Arguments Raise {A} e.

Section Handler.

(** Everything outside the handler that a call can read or change (the
    network, the files on disk, the clipboard), and the collaborators
    themselves: a call returns or raises, and leaves a new world. *)
Context {World : Type}.
Variable collaborators : forall c : Call, World -> py (answer c) * World.

(** A block of statements: from a world to an outcome, the world it leaves
    and the calls it made, oldest first. *)
Definition M (A : Type) : Type := World -> outcome A * World * list Event.

#[global] Instance M_ret : MRet M := fun A a w => (Normal a, w, []).
#[global] Instance M_bind : MBind M := fun A B k m w =>
  match m w with
  | (Normal a, w', log) => let '(o, w'', log') := k a w' in (o, w'', log ++ log')
  | (Return r, w', log) => (Return r, w', log)
  | (Raise e, w', log) => (Raise e, w', log)
  end.

(** A pure library call inside a block. *)
Definition lift {A : Type} (p : py A) : M A := fun w =>
  match p with
  | Returns a => (Normal a, w, [])
  | Raises e => (Raise e, w, [])
  end.

(** A call to a collaborator. *)
Definition call (c : Call) : M (answer c) := fun w =>
  match collaborators c w with
  | (Returns a, w') => (Normal a, w', [{| ev_call := c; ev_raised := None |}])
  | (Raises e, w') => (Raise e, w', [{| ev_call := c; ev_raised := Some e |}])
  end.

(** [return r] *)
Definition return_ {A : Type} (r : Response) : M A := fun w => (Return r, w, []).

(** [try: body except Exception as e: handler(e)] *)
Definition try_except_M {A : Type} (body : M A) (handler : exn -> M A) : M A := fun w =>
  match body w with
  | (Raise e, w', log) => let '(o, w'', log') := handler e w' in (o, w'', log ++ log')
  | r => r
  end.

(** A view function whose every path ends in [return] or raises: what
    Flask gets back from it. *)
Definition view (body : M Empty_set) (w : World) : py Response * World * list Event :=
  match body w with
  | (Normal a, _, _) => match a with end
  | (Return r, w', log) => (Returns r, w', log)
  | (Raise e, w', log) => (Raises e, w', log)
  end.

Definition newline : string := String (ascii_of_N 10) EmptyString.

(** Lines 129-148 of [index]: write the uncompressed output, produce the
    compressed one, count the tokens of both, copy to the clipboard and
    render the page. *)
Definition write_outputs (output_file processed_file final_output : string) : M Empty_set :=
  _ ← call (write_file output_file final_output);
  _ ← call (preprocess_text output_file processed_file);
  compressed_text ← call (safe_file_read processed_file);
  compressed_token_count ← call (get_token_count compressed_text);
  uncompressed_text ← call (safe_file_read output_file);
  uncompressed_token_count ← call (get_token_count uncompressed_text);
  _ ← call (pyperclip_copy uncompressed_text);
  return_ (render_template_string (Some final_output)
             (Some uncompressed_token_count) (Some compressed_token_count)).

Definition security_rejection : Response :=
  render_template_string (Some "Error: URL rejected by security policy.") None None.

Definition local_path_rejection : Response :=
  render_template_string
    (Some "Error: Local path processing is not allowed via the web interface.")
    None None.

(** Lines 100-127 of [index]: choose the backend from the shape of the
    input and fetch the text. *)
Definition retrieve (urls_list_file input_path : string) : M string :=
  parsed ← lift (urllib.urlparse input_path);
  if Str.contains "github.com" input_path then
    safe ← lift (_is_safe_url input_path);
    if negb safe then return_ security_rejection
    else if Str.contains "/pull/" input_path then
      call (Retrieve process_github_pull_request input_path)
    else if Str.contains "/issues/" input_path then
      call (Retrieve process_github_issue input_path)
    else
      call (Retrieve process_github_repo input_path)
  else if bool_decide (urllib.scheme parsed ∈ ["http"; "https"]) then
    safe ← lift (_is_safe_url input_path);
    if negb safe then return_ security_rejection
    else if Str.contains "youtube.com" input_path || Str.contains "youtu.be" input_path then
      call (Retrieve fetch_youtube_transcript input_path)
    else if Str.contains "arxiv.org" input_path then
      call (Retrieve process_arxiv_pdf input_path)
    else
      crawl_result ← call (crawl_and_extract_text input_path 2 true true);
      let final_output := content crawl_result in
      _ ← call (write_file urls_list_file
                  (Str.join newline (processed_urls crawl_result)));
      mret final_output
  else if (Str.startswith "10." input_path && Str.contains "/" input_path)
          || Str.isdigit input_path then
    call (Retrieve process_doi_or_pmid input_path)
  else
    return_ local_path_rejection.

(** The [except Exception as e] clause of [index]. *)
Definition on_error {A : Type} (e : exn) : M A :=
  return_ (render_template_string (Some ("Error: " +:+ exn_str e)) None None).

(** The body of [index]. *)
Definition index_body (request : Request) : M Empty_set :=
  if String.eqb (method request) "POST" then
    let input_path := Str.strip (default EmptyString (form request !! "input_path")) in
    let output_file := "uncompressed_output.txt" in
    let processed_file := "compressed_output.txt" in
    let urls_list_file := "processed_urls.txt" in
    try_except_M
      (final_output ← retrieve urls_list_file input_path;
       write_outputs output_file processed_file final_output)
      on_error
  else
    return_ (render_template_string None None None).

(** [index()], the view function of [/]. *)
Definition index (request : Request) (w : World) : py Response * World * list Event :=
  view (index_body request) w.

End Handler.

(** *** [download] *)

(** What a path names on disk. *)
Inductive FsNode : Type :=
| RegularFile (data : string)
| Directory.

(** A file-system access made while serving a download. *)
Inductive FsAccess : Type :=
| IsFile (path : string)
| SendFile (path : string).

Definition access_path (a : FsAccess) : string :=
  match a with IsFile path | SendFile path => path end.

(** What [/download] answers: [abort(status)] or the file sent as an
    attachment. *)
Inductive DownloadResponse : Type :=
| abort (status : Z)
| send_file (path : string) (data : string).

(** Allowed filenames that may be downloaded via [/download]. *)
Definition ALLOWED_DOWNLOAD_FILES : gset string :=
  {[ "uncompressed_output.txt"; "compressed_output.txt" ]}.

Section Download.

(** Directory where output files are written, [os.path.abspath(".")] when
    the module is loaded. *)
Variable OUTPUT_DIR : string.

(** The files on disk, by path. *)
Variable fs : gmap string FsNode.

(** [os.path.isfile(path)] *)
Definition isfile (path : string) : bool :=
  match fs !! path with
  | Some (RegularFile _) => true
  | _ => false
  end.

(** The bytes [send_file] reads from a regular file. *)
Definition file_data (path : string) : string :=
  match fs !! path with
  | Some (RegularFile data) => data
  | _ => EmptyString
  end.

(** [download()], the view function of [/download], with the file-system
    accesses it made, oldest first. *)
Definition download (request : Request) : DownloadResponse * list FsAccess :=
  match args request !! "filename" with
  | None => (abort 404, [])
  | Some filename =>
      if Str.is_empty filename then (abort 404, [])
      else
        (* only the listed output files, from the output directory *)
        let basename := os_path.basename filename in
        if bool_decide (basename ∉ ALLOWED_DOWNLOAD_FILES) then (abort 403, [])
        else
          let safe_path := os_path.join OUTPUT_DIR basename in
          if negb (isfile safe_path) then (abort 404, [IsFile safe_path])
          else (send_file safe_path (file_data safe_path),
                [IsFile safe_path; SendFile safe_path])
  end.

End Download.

End web_app.

(** ** The classifier of the design document

    [index] never builds a classification value: it walks an if/elif chain.
    [Classify] is that chain read as the document words it (section 4.2),
    to state which inputs are meant by each class. *)

Module Spec.

Inductive ClassifiedTarget : Type :=
| RepositoryRef (s : string)
| PullRequestRef (s : string)
| IssueRef (s : string)
| DocumentRef (s : string)
| VideoRef (s : string)
| BibliographicRef (s : string)
| GenericWebRef (s : string)
| Rejected.

(** The string parses as an HTTP or HTTPS URL. *)
Definition is_http_url (s : string) : bool :=
  match urllib.urlparse s with
  | Returns parsed => bool_decide (urllib.scheme parsed ∈ ["http"; "https"])
  | Raises _ => false
  end.

(** It begins with the DOI prefix and contains a separator, or is composed
    entirely of digits. *)
Definition is_bibliographic (s : string) : bool :=
  (Str.startswith "10." s && Str.contains "/" s) || Str.isdigit s.

Definition Classify (rawInput : string) : ClassifiedTarget :=
  if Str.contains "github.com" rawInput then
    if Str.contains "/pull/" rawInput then PullRequestRef rawInput
    else if Str.contains "/issues/" rawInput then IssueRef rawInput
    else RepositoryRef rawInput
  else if is_http_url rawInput then
    if Str.contains "youtube.com" rawInput || Str.contains "youtu.be" rawInput
    then VideoRef rawInput
    else if Str.contains "arxiv.org" rawInput then DocumentRef rawInput
    else GenericWebRef rawInput
  else if is_bibliographic rawInput then BibliographicRef rawInput
  else Rejected.

(** The variants that imply a network fetch from a caller-supplied host. *)
Definition network_bound (t : ClassifiedTarget) : bool :=
  match t with
  | BibliographicRef _ | Rejected => false
  | _ => true
  end.

(** The string [index] works on: the form field [input_path], stripped. *)
Definition input_path_of (request : web_app.Request) : string :=
  Str.strip (default EmptyString (web_app.form request !! "input_path")).

(** Section 4.3: the one backend of each variant that is fetched as text. *)
Definition backend_of (t : ClassifiedTarget) : option web_app.Backend :=
  match t with
  | RepositoryRef _ => Some web_app.process_github_repo
  | PullRequestRef _ => Some web_app.process_github_pull_request
  | IssueRef _ => Some web_app.process_github_issue
  | DocumentRef _ => Some web_app.process_arxiv_pdf
  | VideoRef _ => Some web_app.fetch_youtube_transcript
  | BibliographicRef _ => Some web_app.process_doi_or_pmid
  | GenericWebRef _ | Rejected => None
  end.

Section Pipeline.

Context {World : Type}.
Variable collaborators : forall c : web_app.Call, World -> py (web_app.answer c) * World.

(** Sections 4.3 and 4.4 for a text backend: invoke that backend on the
    input, hand its text to the artifact writer, and turn any error into
    the message of the page. *)
Definition served_by (backend : web_app.Backend) (input_path : string)
    : World -> py web_app.Response * World * list web_app.Event :=
  web_app.view
    (web_app.try_except_M
       (final_output ← web_app.call collaborators (web_app.Retrieve backend input_path);
        web_app.write_outputs collaborators
          "uncompressed_output.txt" "compressed_output.txt" final_output)
       web_app.on_error).

End Pipeline.

(** A block reports the failures of its calls: whenever its log holds a
    call that raised, the block itself ended by raising that exception. *)
Definition reports_failures {World A : Type} (m : @web_app.M World A) : Prop :=
  forall w ev e,
    ev ∈ (m w).2 -> web_app.ev_raised ev = Some e -> (m w).1.1 = web_app.Raise e.

(** The page that shows an exception. *)
Definition error_page (e : exn) : web_app.Response :=
  web_app.render_template_string (Some ("Error: " +:+ exn_str e)) None None.

(** The dotted quad [a.b.c.d] as a 32-bit number. *)
Definition v4 (a b c d : Z) : Z := a * 2 ^ 24 + b * 2 ^ 16 + c * 2 ^ 8 + d.

(** The address blocks section 8 names: 127.0.0.0/8, 10.0.0.0/8,
    169.254.0.0/16 and 192.168.0.0/16. *)
Definition in_denied_block (ip : Z) : Prop :=
  v4 127 0 0 0 <= ip <= v4 127 255 255 255
  \/ v4 10 0 0 0 <= ip <= v4 10 255 255 255
  \/ v4 169 254 0 0 <= ip <= v4 169 254 255 255
  \/ v4 192 168 0 0 <= ip <= v4 192 168 255 255.

End Spec.

(** ** Reading the log of a request *)

Module Trace.

(** The call returned. *)
Definition succeeded (ev : web_app.Event) : Prop := web_app.ev_raised ev = None.

(** A call that fetches content: one of the text backends or the crawler. *)
Definition is_retrieval (c : web_app.Call) : bool :=
  match c with
  | web_app.Retrieve _ _ | web_app.crawl_and_extract_text _ _ _ _ => true
  | _ => false
  end.

(** The file names a call is given. *)
Definition paths_of (c : web_app.Call) : list string :=
  match c with
  | web_app.write_file path _ => [path]
  | web_app.preprocess_text input_file output_file => [input_file; output_file]
  | web_app.safe_file_read path => [path]
  | _ => []
  end.

(** The three file names [index] binds before its [try] block. *)
Definition OUTPUT_NAMES : list string :=
  ["uncompressed_output.txt"; "compressed_output.txt"; "processed_urls.txt"].

(** What [index] may ask of a fetching collaborator for the input
    [input_path]: the input itself, after a passed safety check unless the
    backend is the bibliographic resolver, and the crawler with depth 2,
    PDFs included and EPUBs ignored. *)
Definition gated (input_path : string) (c : web_app.Call) : Prop :=
  match c with
  | web_app.Retrieve backend url =>
      url = input_path
      /\ (backend = web_app.process_doi_or_pmid
          \/ web_app._is_safe_url input_path = Returns true)
  | web_app.crawl_and_extract_text url max_depth include_pdfs ignore_epubs =>
      url = input_path /\ max_depth = 2 /\ include_pdfs = true /\ ignore_epubs = true
      /\ web_app._is_safe_url input_path = Returns true
  | _ => True
  end.

Section Blocks.

Context {World : Type}.

(** Every call the block makes satisfies [P]. *)
Definition calls_only {A : Type} (P : web_app.Call -> Prop) (m : @web_app.M World A) : Prop :=
  forall w ev, ev ∈ (m w).2 -> P (web_app.ev_call ev).

(** Past its first call the block fetches nothing. *)
Definition fetches_first {A : Type} (m : @web_app.M World A) : Prop :=
  forall w, Forall (fun ev => is_retrieval (web_app.ev_call ev) = false) (tail (m w).2).

(** The block stops at the first call that raises: every call before the
    last returned, and so did the last unless the block ends by raising. *)
Definition stops_at_failure {A : Type} (m : @web_app.M World A) : Prop :=
  forall w,
    Forall succeeded (removelast (m w).2)
    /\ ((forall e, (m w).1.1 <> web_app.Raise e) -> Forall succeeded (m w).2).

Variable collaborators : forall c : web_app.Call, World -> py (web_app.answer c) * World.

(** The crawl branch of [index] as a whole request: crawl the input, write
    the visited URLs one per line to the sidecar file, then hand the
    crawled text to the artifact writer. *)
Definition crawled (input_path : string)
    : World -> py web_app.Response * World * list web_app.Event :=
  web_app.view
    (web_app.try_except_M
       (final_output ←
          (crawl_result ← web_app.call collaborators
                            (web_app.crawl_and_extract_text input_path 2 true true);
           _ ← web_app.call collaborators
                 (web_app.write_file "processed_urls.txt"
                    (Str.join web_app.newline (web_app.processed_urls crawl_result)));
           mret (web_app.content crawl_result));
        web_app.write_outputs collaborators
          "uncompressed_output.txt" "compressed_output.txt" final_output)
       web_app.on_error).

End Blocks.

(** A logged call that returned. *)
Definition ok (c : web_app.Call) : web_app.Event :=
  {| web_app.ev_call := c; web_app.ev_raised := None |}.

(** The calls of the artifact writer when all of them return: the text is
    written, normalised, and both files are read back and counted; the
    clipboard gets the uncompressed text as read back. *)
Definition writer_calls (final_output compressed_text uncompressed_text : string)
    : list web_app.Event :=
  [ ok (web_app.write_file "uncompressed_output.txt" final_output);
    ok (web_app.preprocess_text "uncompressed_output.txt" "compressed_output.txt");
    ok (web_app.safe_file_read "compressed_output.txt");
    ok (web_app.get_token_count compressed_text);
    ok (web_app.safe_file_read "uncompressed_output.txt");
    ok (web_app.get_token_count uncompressed_text);
    ok (web_app.pyperclip_copy uncompressed_text) ].

(** The IPv4-mapped IPv6 address [::ffff:a.b.c.d] of a 32-bit address. *)
Definition mapped (ip4 : Z) : Z := 65535 * 2 ^ 32 + ip4.

End Trace.

(** ** A concrete set of collaborators

    Files live in a map from path to text; every backend answers with a
    fixed text, except the issue backend, which fails. *)

Module Scenario.

Definition World : Type := gmap string string.

Definition read (path : string) (disk : World) : py string * World :=
  match disk !! path with
  | Some text => (Returns text, disk)
  | None => (Raises (OtherException ("No such file: " +:+ path)), disk)
  end.

Definition collaborators (c : web_app.Call) : World -> py (web_app.answer c) * World :=
  match c with
  | web_app.Retrieve web_app.process_github_issue _ =>
      fun disk => (Raises (OtherException "API rate limit exceeded"), disk)
  | web_app.Retrieve _ input_path =>
      fun disk => (Returns ("Text Of " +:+ input_path), disk)
  | web_app.crawl_and_extract_text url _ _ _ =>
      fun disk => (Returns {| web_app.content := "Pages Of " +:+ url;
                              web_app.processed_urls := [url; url +:+ "about"] |}, disk)
  | web_app.write_file path text =>
      fun disk => (Returns tt, <[path := text]> disk)
  | web_app.preprocess_text input_file output_file =>
      fun disk =>
        match disk !! input_file with
        | Some text => (Returns tt, <[output_file := Str.lower text]> disk)
        | None => (Raises (OtherException ("No such file: " +:+ input_file)), disk)
        end
  | web_app.safe_file_read path => read path
  | web_app.get_token_count text =>
      fun disk => (Returns (Z.of_nat (length (Str.split " " text))), disk)
  | web_app.pyperclip_copy _ =>
      fun disk => (Returns tt, disk)
  end.

(** A form submission of [input_path]. *)
Definition post (input_path : string) : web_app.Request :=
  {| web_app.method := "POST";
     web_app.form := {[ "input_path" := input_path ]};
     web_app.args := ∅ |}.

(** A request for [/download?filename=...]. *)
Definition get_download (filename : string) : web_app.Request :=
  {| web_app.method := "GET";
     web_app.form := ∅;
     web_app.args := {[ "filename" := filename ]} |}.

Definition OUTPUT_DIR : string := "/srv/onefilellm".

(** A disk with the uncompressed output written and the compressed one
    missing. *)
Definition disk : gmap string web_app.FsNode :=
  {[ "/srv/onefilellm/uncompressed_output.txt" := web_app.RegularFile "Text Of Repo";
     "/srv/onefilellm/templates" := web_app.Directory;
     "/etc/passwd" := web_app.RegularFile "root:x:0:0" ]}.

End Scenario.

(** ** Collaborators with a failing token counter

    As [Scenario], except that [get_token_count] raises. *)

Module Outage.

Definition collaborators (c : web_app.Call)
    : Scenario.World -> py (web_app.answer c) * Scenario.World :=
  match c with
  | web_app.get_token_count _ =>
      fun disk => (Raises (OtherException "tokenizer unavailable"), disk)
  | c => Scenario.collaborators c
  end.

End Outage.

(** * Properties *)

(** ** Strings and library calls *)

Section StrFacts.

Lemma append_cons (a : ascii) (s t : string) :
  String a s +:+ t = String a (s +:+ t).
Proof. reflexivity. Qed.

Lemma partition_app (c : ascii) (s h t : string) (f : bool) :
  Str.partition c s = (h, f, t) ->
  s = h +:+ (if f then String c EmptyString else EmptyString) +:+ t.
Proof.
  revert h f t. induction s as [|a s IH]; intros h f t; simpl.
  - intros [= <- <- <-]. reflexivity.
  - destruct (Ascii.eqb a c) eqn:Hac.
    + intros [= <- <- <-]. apply Ascii.eqb_eq in Hac. subst a. reflexivity.
    + destruct (Str.partition c s) as [[h' f'] t'] eqn:Hp.
      intros [= <- <- <-]. rewrite append_cons. f_equal. exact (IH _ _ _ eq_refl).
Qed.

Lemma is_empty_true (s : string) : Str.is_empty s = true <-> s = EmptyString.
Proof. destruct s; simpl; split; congruence. Qed.

Lemma is_empty_app (s t : string) :
  Str.is_empty (s +:+ t) = Str.is_empty s && Str.is_empty t.
Proof. destruct s; reflexivity. Qed.

Lemma is_empty_lower (s : string) : Str.is_empty (Str.lower s) = Str.is_empty s.
Proof. destruct s; reflexivity. Qed.

(** The [hostname] property is never the empty string. *)
Lemma hostname_not_empty (r : urllib.ParseResult) (h : string) :
  urllib.hostname r = Some h -> Str.is_empty h = false.
Proof.
  unfold urllib.hostname.
  destruct (Str.is_empty (urllib._hostinfo_hostname (urllib.netloc r))) eqn:He; [discriminate|].
  destruct (Str.partition "%" (urllib._hostinfo_hostname (urllib.netloc r)))
    as [[h1 pct] zone] eqn:Hp.
  intros [= <-]. apply partition_app in Hp. rewrite Hp in He.
  rewrite !is_empty_app in He |- *. rewrite is_empty_lower.
  destruct pct; exact He.
Qed.

(** [ip_address] raises nothing but [ValueError]. *)
Lemma ip_address_raises (address : string) (e : exn) :
  ipaddress.ip_address address = Raises e -> exists msg, e = ValueError msg.
Proof.
  unfold ipaddress.ip_address.
  destruct (ipaddress.v4_address address); [discriminate|].
  destruct (ipaddress.v6_address address) as [[ip scope]|]; [discriminate|].
  intros [= <-]. eauto.
Qed.

End StrFacts.

(** ** Address blocks *)

Section Blocks.

Lemma land_shiftl_mask (ip m k : Z) :
  0 <= k -> Z.land ip (Z.shiftl m k) = Z.shiftl (Z.land (Z.shiftr ip k) m) k.
Proof.
  intros Hk. apply Z.bits_inj'. intros n Hn.
  rewrite Z.land_spec.
  destruct (Z.lt_ge_cases n k) as [Hlt|Hge].
  - rewrite !Z.shiftl_spec_low by assumption. apply andb_false_r.
  - rewrite !Z.shiftl_spec by assumption.
    rewrite Z.land_spec, Z.shiftr_spec by lia.
    replace (n - k + k) with n by lia. reflexivity.
Qed.

(** An address lies in the network [q * 2^k / (32 - k)] exactly when its
    bits above [k] are [q]; one direction suffices here. *)
Lemma net_contains_block (q m k ip : Z) :
  0 <= k -> Z.land q m = q ->
  q * 2 ^ k <= ip < (q + 1) * 2 ^ k ->
  (Z.land ip (Z.shiftl m k) =? Z.shiftl q k) = true.
Proof.
  intros Hk Hq Hip. apply Z.eqb_eq.
  rewrite land_shiftl_mask by assumption.
  rewrite Z.shiftr_div_pow2 by assumption.
  assert (Hpos : 0 < 2 ^ k) by (apply Z.pow_pos_nonneg; lia).
  replace (ip / 2 ^ k) with q; [now rewrite Hq|].
  apply Z.div_unique with (r := ip - q * 2 ^ k); lia.
Qed.

Lemma block_is_loopback (ip : Z) :
  Spec.v4 127 0 0 0 <= ip <= Spec.v4 127 255 255 255 ->
  ipaddress.is_loopback (ipaddress.IPv4Address ip) = true.
Proof.
  intros H. unfold Spec.v4 in H.
  apply (net_contains_block 127 255 24); [lia | reflexivity | lia].
Qed.

Lemma block_is_link_local (ip : Z) :
  Spec.v4 169 254 0 0 <= ip <= Spec.v4 169 254 255 255 ->
  ipaddress.is_link_local (ipaddress.IPv4Address ip) = true.
Proof.
  intros H. unfold Spec.v4 in H.
  apply (net_contains_block 43518 65535 16); [lia | reflexivity | lia].
Qed.

(** A /32 network holds its own address only. *)
Lemma net_contains_host (a ip : Z) :
  0 <= ip < 2 ^ 32 ->
  ipaddress.net_contains 32 {| ipaddress.network_address := a; ipaddress.prefixlen := 32 |} ip
  = (ip =? a).
Proof.
  intros Hip. unfold ipaddress.net_contains. cbn [ipaddress.prefixlen ipaddress.network_address].
  change (ipaddress.netmask 32 32) with (Z.ones 32).
  rewrite Z.land_ones, Z.mod_small by lia. reflexivity.
Qed.

(** None of the four blocks meets the two addresses that [is_private]
    excepts (192.0.0.9 and 192.0.0.10). *)
Lemma not_an_exception (ip : Z) :
  0 <= ip < 2 ^ 32 -> ip <> Spec.v4 192 0 0 9 -> ip <> Spec.v4 192 0 0 10 ->
  ipaddress.in_any 32 ipaddress._IPv4Constants._private_networks_exceptions ip = false.
Proof.
  intros Hip H9 H10.
  unfold ipaddress.in_any, ipaddress._IPv4Constants._private_networks_exceptions.
  cbn [existsb].
  change (ipaddress.IPv4Network "192.0.0.9" 32)
    with {| ipaddress.network_address := Spec.v4 192 0 0 9; ipaddress.prefixlen := 32 |}.
  change (ipaddress.IPv4Network "192.0.0.10" 32)
    with {| ipaddress.network_address := Spec.v4 192 0 0 10; ipaddress.prefixlen := 32 |}.
  rewrite !net_contains_host by assumption.
  apply Z.eqb_neq in H9, H10. rewrite H9, H10. reflexivity.
Qed.

Lemma block_10_is_private (ip : Z) :
  Spec.v4 10 0 0 0 <= ip <= Spec.v4 10 255 255 255 ->
  ipaddress.is_private (ipaddress.IPv4Address ip) = true.
Proof.
  intros H. unfold Spec.v4 in H.
  assert (Hin : ipaddress.net_contains 32 (ipaddress.IPv4Network "10.0.0.0" 8) ip = true)
    by (apply (net_contains_block 10 255 24); [lia | reflexivity | lia]).
  unfold ipaddress.is_private, ipaddress.v4_is_private. apply andb_true_iff. split.
  - unfold ipaddress.in_any, ipaddress._IPv4Constants._private_networks.
    cbn [existsb]. rewrite Hin. apply orb_true_r.
  - rewrite not_an_exception; [reflexivity | lia | unfold Spec.v4; lia ..].
Qed.

Lemma block_192_168_is_private (ip : Z) :
  Spec.v4 192 168 0 0 <= ip <= Spec.v4 192 168 255 255 ->
  ipaddress.is_private (ipaddress.IPv4Address ip) = true.
Proof.
  intros H. unfold Spec.v4 in H.
  assert (Hin : ipaddress.net_contains 32 (ipaddress.IPv4Network "192.168.0.0" 16) ip = true)
    by (apply (net_contains_block 49320 65535 16); [lia | reflexivity | lia]).
  unfold ipaddress.is_private, ipaddress.v4_is_private. apply andb_true_iff. split.
  - unfold ipaddress.in_any, ipaddress._IPv4Constants._private_networks.
    cbn [existsb]. rewrite Hin. rewrite !orb_true_r. reflexivity.
  - rewrite not_an_exception; [reflexivity | lia | unfold Spec.v4; lia ..].
Qed.

End Blocks.

(** ** The address safety check *)

Section SafeUrl.

Lemma is_safe_url_unfold (url : string) :
  web_app._is_safe_url url =
  match urllib.urlparse url with
  | Raises _ => Returns false
  | Returns parsed =>
      match urllib.hostname parsed with
      | None => Returns false
      | Some hostname =>
          if bool_decide (hostname ∈ ["localhost"; "metadata.google.internal"])
          then Returns false
          else
            match ipaddress.ip_address hostname with
            | Returns addr =>
                Returns (negb (ipaddress.is_private addr || ipaddress.is_loopback addr
                               || ipaddress.is_link_local addr || ipaddress.is_reserved addr))
            | Raises _ => Returns true
            end
      end
  end.
Proof.
  unfold web_app._is_safe_url, web_app.try_except, mbind, py_bind.
  destruct (urllib.urlparse url) as [parsed|e]; [|reflexivity].
  destruct (urllib.hostname parsed) as [h|] eqn:Hh; [|reflexivity].
  rewrite (hostname_not_empty _ _ Hh).
  case_bool_decide; [reflexivity|].
  destruct (ipaddress.ip_address h) as [addr|e] eqn:Hip.
  - destruct (_ || _); reflexivity.
  - destruct (ip_address_raises _ _ Hip) as [msg ->]. reflexivity.
Qed.

(** The check never raises: it always answers with a boolean. *)
Lemma is_safe_url_total (url : string) :
  exists b, web_app._is_safe_url url = Returns b.
Proof.
  rewrite is_safe_url_unfold.
  destruct (urllib.urlparse url) as [parsed|e]; [|eauto].
  destruct (urllib.hostname parsed) as [h|]; [|eauto].
  case_bool_decide; [eauto|].
  destruct (ipaddress.ip_address h); eauto.
Qed.

Lemma denied_block_flagged (ip : Z) :
  Spec.in_denied_block ip ->
  ipaddress.is_private (ipaddress.IPv4Address ip)
  || ipaddress.is_loopback (ipaddress.IPv4Address ip)
  || ipaddress.is_link_local (ipaddress.IPv4Address ip)
  || ipaddress.is_reserved (ipaddress.IPv4Address ip) = true.
Proof.
  intros [H|[H|[H|H]]].
  - rewrite (block_is_loopback _ H). rewrite orb_true_r. reflexivity.
  - rewrite (block_10_is_private _ H). reflexivity.
  - rewrite (block_is_link_local _ H). rewrite !orb_true_r. reflexivity.
  - rewrite (block_192_168_is_private _ H). reflexivity.
Qed.

(** C3: [_is_safe_url] always returns a boolean (it never raises), and that
    boolean is [False] when parsing the URL fails, when the URL has no
    hostname, when the hostname is [localhost] or
    [metadata.google.internal] (whatever the scheme, which the statement
    leaves free), and when the hostname is an IPv4 literal in 127.0.0.0/8,
    10.0.0.0/8, 169.254.0.0/16 or 192.168.0.0/16. *)
Theorem is_safe_url_fails_closed (url : string) :
  (exists b, web_app._is_safe_url url = Returns b)
  /\ (forall e, urllib.urlparse url = Raises e ->
        web_app._is_safe_url url = Returns false)
  /\ (forall parsed, urllib.urlparse url = Returns parsed ->
        (urllib.hostname parsed = None ->
           web_app._is_safe_url url = Returns false)
        /\ (urllib.hostname parsed = Some "localhost" ->
              web_app._is_safe_url url = Returns false)
        /\ (urllib.hostname parsed = Some "metadata.google.internal" ->
              web_app._is_safe_url url = Returns false)
        /\ (forall hostname ip,
              urllib.hostname parsed = Some hostname ->
              ipaddress.ip_address hostname = Returns (ipaddress.IPv4Address ip) ->
              Spec.in_denied_block ip ->
              web_app._is_safe_url url = Returns false)).
Proof.
  split; [apply is_safe_url_total|].
  split.
  - intros e He. rewrite is_safe_url_unfold, He. reflexivity.
  - intros parsed Hp. rewrite is_safe_url_unfold, Hp.
    repeat split.
    + intros ->. reflexivity.
    + intros ->. reflexivity.
    + intros ->. reflexivity.
    + intros h ip -> Hip Hblock.
      case_bool_decide; [reflexivity|].
      rewrite Hip, (denied_block_flagged _ Hblock). reflexivity.
Qed.

(** C4: a URL whose hostname is neither of the two denylisted names and is
    not an IP literal ([ip_address] raises on it) passes the check.  The
    check is a function of the URL text alone: nothing is resolved, so
    where the name would point plays no part. *)
Theorem is_safe_url_domain_name
    (url : string) (parsed : urllib.ParseResult) (hostname : string) (e : exn) :
  urllib.urlparse url = Returns parsed ->
  urllib.hostname parsed = Some hostname ->
  hostname <> "localhost" ->
  hostname <> "metadata.google.internal" ->
  ipaddress.ip_address hostname = Raises e ->
  web_app._is_safe_url url = Returns true.
Proof.
  intros Hp Hh Hl Hm Hip.
  rewrite is_safe_url_unfold, Hp, Hh, Hip.
  rewrite bool_decide_eq_false_2; [reflexivity|].
  intros Hin. apply elem_of_cons in Hin as [->|Hin]; [congruence|].
  apply elem_of_cons in Hin as [->|Hin]; [congruence|].
  inversion Hin.
Qed.

End SafeUrl.

(** ** URLs that start with a digit *)

Section UrlFacts.

Lemma split_scheme_plain (c : ascii) (s : string) :
  Str.isascii c && Str.isalpha_ascii c = false ->
  urllib.split_scheme (String c s) = (EmptyString, String c s).
Proof.
  intros Ha. unfold urllib.split_scheme. cbn [Str.partition].
  destruct (Ascii.eqb c ":"); [reflexivity|].
  destruct (Str.partition ":" s) as [[h f] t]. cbv beta iota zeta.
  destruct f, (Str.isascii c), (Str.isalpha_ascii c);
    try discriminate Ha; reflexivity.
Qed.

(** A text whose first character is neither a control character or space,
    nor a letter, nor a slash has no scheme and no network location, and
    parsing it does not raise. *)
Lemma urlparse_plain (c : ascii) (s : string) :
  urllib.is_c0_or_space c = false ->
  Str.isascii c && Str.isalpha_ascii c = false ->
  c <> "/"%char ->
  urllib.urlparse (String c s)
  = Returns {| urllib.scheme := EmptyString; urllib.netloc := EmptyString |}.
Proof.
  intros Hc Ha Hs. unfold urllib.urlparse, urllib.urlsplit.
  cbn [Str.lstrip_by]. rewrite Hc.
  assert (Hu : urllib.is_unsafe_byte c = false).
  { unfold urllib.is_unsafe_byte, urllib.is_c0_or_space in *.
    apply Z.leb_gt in Hc.
    rewrite !orb_false_iff, !Z.eqb_neq. lia. }
  cbn [Str.remove_by]. rewrite Hu, split_scheme_plain by assumption.
  unfold Str.startswith. cbn [String.prefix].
  destruct (ascii_dec "/" c); [congruence|reflexivity].
Qed.

Lemma digit_char_plain (c : ascii) :
  Str.is_digit_char c = true ->
  urllib.is_c0_or_space c = false
  /\ Str.isascii c && Str.isalpha_ascii c = false
  /\ c <> "/"%char.
Proof.
  destruct c as [[] [] [] [] [] [] [] []]; vm_compute;
    intros H; try discriminate H; repeat split; discriminate.
Qed.

(** A bibliographic identifier starts with a digit. *)
Lemma is_bibliographic_first (s : string) :
  Spec.is_bibliographic s = true ->
  exists c s', s = String c s' /\ Str.is_digit_char c = true.
Proof.
  unfold Spec.is_bibliographic. intros H.
  destruct s as [|c s']; [discriminate H|].
  exists c, s'. split; [reflexivity|].
  apply orb_true_iff in H as [H|H].
  - apply andb_true_iff in H as [H _]. unfold Str.startswith in H. cbn [String.prefix] in H.
    destruct (ascii_dec "1" c) as [<-|]; [reflexivity|discriminate H].
  - unfold Str.isdigit in H. cbn [Str.is_empty negb Str.all_chars andb] in H.
    apply andb_true_iff in H as [H _]. exact H.
Qed.

Lemma urlparse_bibliographic (s : string) :
  Spec.is_bibliographic s = true ->
  urllib.urlparse s
  = Returns {| urllib.scheme := EmptyString; urllib.netloc := EmptyString |}.
Proof.
  intros H. destruct (is_bibliographic_first _ H) as (c & s' & -> & Hc).
  destruct (digit_char_plain _ Hc) as (H1 & H2 & H3).
  apply urlparse_plain; assumption.
Qed.

End UrlFacts.

(** ** The request handler *)

Section HandlerFacts.

Context {World : Type}.
Variable collaborators : forall c : web_app.Call, World -> py (web_app.answer c) * World.

Abbreviation retrieve := (web_app.retrieve collaborators "processed_urls.txt").
Abbreviation write_outputs :=
  (web_app.write_outputs collaborators "uncompressed_output.txt" "compressed_output.txt").
Abbreviation index := (web_app.index collaborators).

(** A POST runs the [try] block on the stripped form field. *)
Lemma index_post (request : web_app.Request) (w : World) :
  web_app.method request = "POST" ->
  index request w =
  web_app.view
    (web_app.try_except_M
       (final_output ← retrieve (Spec.input_path_of request); write_outputs final_output)
       web_app.on_error) w.
Proof.
  intros Hm. unfold web_app.index, web_app.index_body. rewrite Hm. reflexivity.
Qed.

(** Any other method renders the empty form and calls nothing. *)
Lemma index_get (request : web_app.Request) (w : World) :
  web_app.method request <> "POST" ->
  index request w = (Returns (web_app.render_template_string None None None), w, []).
Proof.
  intros Hm. unfold web_app.index, web_app.index_body.
  destruct (String.eqb_spec (web_app.method request) "POST"); [contradiction|reflexivity].
Qed.

(** When the block stops before its first call, so does the handler. *)
Lemma handler_stops_early (m : web_app.M string) (w : World) (r : web_app.Response) :
  m w = (web_app.Return r, w, []) ->
  web_app.view (web_app.try_except_M (x ← m; write_outputs x) web_app.on_error) w
  = (Returns r, w, []).
Proof.
  intros Hm. unfold web_app.view, web_app.try_except_M, mbind, web_app.M_bind.
  rewrite Hm. reflexivity.
Qed.

Lemma handler_raises_early (m : web_app.M string) (w : World) (e : exn) :
  m w = (web_app.Raise e, w, []) ->
  web_app.view (web_app.try_except_M (x ← m; write_outputs x) web_app.on_error) w
  = (Returns (Spec.error_page e), w, []).
Proof.
  intros Hm. unfold web_app.view, web_app.try_except_M, mbind, web_app.M_bind.
  rewrite Hm. reflexivity.
Qed.

(** Two blocks that behave alike are handled alike. *)
Lemma handler_ext (m1 m2 : web_app.M string) (w : World) :
  m1 w = m2 w ->
  web_app.view (web_app.try_except_M (x ← m1; write_outputs x) web_app.on_error) w
  = web_app.view (web_app.try_except_M (x ← m2; write_outputs x) web_app.on_error) w.
Proof.
  intros Hm. unfold web_app.view, web_app.try_except_M, mbind, web_app.M_bind.
  rewrite Hm. reflexivity.
Qed.

(** [retrieve] when [urlparse] raises: nothing else happens. *)
Lemma retrieve_parse_error (s : string) (e : exn) (w : World) :
  urllib.urlparse s = Raises e ->
  retrieve s w = (web_app.Raise e, w, []).
Proof.
  intros Hp. unfold web_app.retrieve, mbind, web_app.M_bind. rewrite Hp. reflexivity.
Qed.

Lemma bind_lift_returns {A B : Type} (a : A) (k : A -> web_app.M B) (w : World) :
  (x ← web_app.lift (Returns a); k x) w = k a w.
Proof.
  unfold mbind, web_app.M_bind, web_app.lift.
  destruct (k a w) as [[o w'] log]. reflexivity.
Qed.

(** [retrieve] on an input with the repository-host marker. *)
Lemma retrieve_github (s : string) (parsed : urllib.ParseResult) (safe : bool) (w : World) :
  urllib.urlparse s = Returns parsed ->
  Str.contains "github.com" s = true ->
  web_app._is_safe_url s = Returns safe ->
  retrieve s w =
  if safe then
    web_app.call collaborators
      (web_app.Retrieve
         (if Str.contains "/pull/" s then web_app.process_github_pull_request
          else if Str.contains "/issues/" s then web_app.process_github_issue
          else web_app.process_github_repo) s) w
  else (web_app.Return web_app.security_rejection, w, []).
Proof.
  intros Hp Hg Hs. unfold web_app.retrieve.
  rewrite Hp, bind_lift_returns, Hg, Hs, bind_lift_returns.
  destruct safe; [|reflexivity]. cbn [negb].
  destruct (Str.contains "/pull/" s); [reflexivity|].
  destruct (Str.contains "/issues/" s); reflexivity.
Qed.

(** [retrieve] on an HTTP or HTTPS URL without the marker, when the safety
    check fails. *)
Lemma retrieve_http_unsafe (s : string) (parsed : urllib.ParseResult) (w : World) :
  urllib.urlparse s = Returns parsed ->
  Str.contains "github.com" s = false ->
  bool_decide (urllib.scheme parsed ∈ ["http"; "https"]) = true ->
  web_app._is_safe_url s = Returns false ->
  retrieve s w = (web_app.Return web_app.security_rejection, w, []).
Proof.
  intros Hp Hg Hh Hs. unfold web_app.retrieve.
  rewrite Hp, bind_lift_returns, Hg, Hh, Hs, bind_lift_returns. reflexivity.
Qed.

(** [retrieve] on an input that is neither: the bibliographic test
    decides. *)
Lemma retrieve_other (s : string) (parsed : urllib.ParseResult) (w : World) :
  urllib.urlparse s = Returns parsed ->
  Str.contains "github.com" s = false ->
  bool_decide (urllib.scheme parsed ∈ ["http"; "https"]) = false ->
  retrieve s w =
  if Spec.is_bibliographic s
  then web_app.call collaborators (web_app.Retrieve web_app.process_doi_or_pmid s) w
  else (web_app.Return web_app.local_path_rejection, w, []).
Proof.
  intros Hp Hg Hh. unfold web_app.retrieve, Spec.is_bibliographic.
  rewrite Hp, bind_lift_returns, Hg, Hh.
  destruct (_ || _); reflexivity.
Qed.

(** The four shapes of [Classify] seen from the tests [index] makes. *)
Lemma classify_network_bound (s : string) :
  Spec.network_bound (Spec.Classify s) = true ->
  Str.contains "github.com" s = true
  \/ (Str.contains "github.com" s = false /\ Spec.is_http_url s = true).
Proof.
  unfold Spec.Classify.
  destruct (Str.contains "github.com" s); [auto|].
  destruct (Spec.is_http_url s); [auto|].
  destruct (Spec.is_bibliographic s); discriminate.
Qed.

Lemma classify_rejected (s : string) :
  Spec.Classify s = Spec.Rejected ->
  Str.contains "github.com" s = false
  /\ Spec.is_http_url s = false /\ Spec.is_bibliographic s = false.
Proof.
  unfold Spec.Classify.
  destruct (Str.contains "github.com" s).
  { destruct (Str.contains "/pull/" s); [discriminate|].
    destruct (Str.contains "/issues/" s); discriminate. }
  destruct (Spec.is_http_url s).
  { destruct (_ || _); [discriminate|].
    destruct (Str.contains "arxiv.org" s); discriminate. }
  destruct (Spec.is_bibliographic s); [discriminate|auto].
Qed.

(** C5 (as amended): for a POST whose input is network-bound and fails the
    safety check, the handler makes no call at all and leaves the world as
    it was (no backend runs, no artifact file is written); the page shows
    the security-rejection message when the handler's own [urlparse] of the
    input succeeded, and the message of the parse error when it raised. *)
Theorem unsafe_input_touches_nothing (request : web_app.Request) (w : World) :
  web_app.method request = "POST" ->
  Spec.network_bound (Spec.Classify (Spec.input_path_of request)) = true ->
  web_app._is_safe_url (Spec.input_path_of request) = Returns false ->
  index request w =
  (Returns match urllib.urlparse (Spec.input_path_of request) with
           | Returns _ => web_app.security_rejection
           | Raises e => Spec.error_page e
           end, w, []).
Proof.
  intros Hm Hnb Hsafe. rewrite index_post by assumption.
  set (s := Spec.input_path_of request) in *.
  destruct (urllib.urlparse s) as [parsed|e] eqn:Hp.
  - apply handler_stops_early.
    destruct (classify_network_bound _ Hnb) as [Hg|[Hg Hh]].
    + rewrite (retrieve_github _ _ _ _ Hp Hg Hsafe). reflexivity.
    + unfold Spec.is_http_url in Hh. rewrite Hp in Hh.
      apply (retrieve_http_unsafe _ _ _ Hp Hg Hh Hsafe).
  - apply handler_raises_early, retrieve_parse_error, Hp.
Qed.

(** C6: an input with the marker [github.com] is a pull-request reference
    when it contains [/pull/], otherwise an issue reference when it
    contains [/issues/], otherwise a repository reference, the pull test
    coming first; and [index] treats it so: when the safety check passes,
    the request is served by the backend of that class and no other, and
    when it fails the handler stops before any call. *)
Theorem github_marker_classification (request : web_app.Request) (w : World) :
  web_app.method request = "POST" ->
  Str.contains "github.com" (Spec.input_path_of request) = true ->
  Spec.Classify (Spec.input_path_of request) =
    (if Str.contains "/pull/" (Spec.input_path_of request)
     then Spec.PullRequestRef (Spec.input_path_of request)
     else if Str.contains "/issues/" (Spec.input_path_of request)
     then Spec.IssueRef (Spec.input_path_of request)
     else Spec.RepositoryRef (Spec.input_path_of request))
  /\ (web_app._is_safe_url (Spec.input_path_of request) = Returns true ->
      exists backend,
        Spec.backend_of (Spec.Classify (Spec.input_path_of request)) = Some backend
        /\ backend =
             (if Str.contains "/pull/" (Spec.input_path_of request)
              then web_app.process_github_pull_request
              else if Str.contains "/issues/" (Spec.input_path_of request)
              then web_app.process_github_issue
              else web_app.process_github_repo)
        /\ index request w =
             Spec.served_by collaborators backend (Spec.input_path_of request) w)
  /\ (web_app._is_safe_url (Spec.input_path_of request) = Returns false ->
      exists page, index request w = (Returns page, w, [])).
Proof.
  intros Hm Hg. set (s := Spec.input_path_of request) in *.
  assert (Hc : Spec.Classify s =
               (if Str.contains "/pull/" s then Spec.PullRequestRef s
                else if Str.contains "/issues/" s then Spec.IssueRef s
                else Spec.RepositoryRef s))
    by (unfold Spec.Classify; rewrite Hg; reflexivity).
  split; [exact Hc|]. split.
  - intros Hsafe. eexists. split; [|split; [reflexivity|]].
    + rewrite Hc. destruct (Str.contains "/pull/" s); [reflexivity|].
      destruct (Str.contains "/issues/" s); reflexivity.
    + rewrite index_post by assumption. fold s. unfold Spec.served_by.
      apply handler_ext.
      destruct (urllib.urlparse s) as [parsed|e] eqn:Hp.
      * rewrite (retrieve_github _ _ _ _ Hp Hg Hsafe). reflexivity.
      * rewrite is_safe_url_unfold, Hp in Hsafe. discriminate.
  - intros Hsafe. rewrite index_post by assumption. fold s.
    destruct (urllib.urlparse s) as [parsed|e] eqn:Hp; eexists.
    + apply handler_stops_early.
      rewrite (retrieve_github _ _ _ _ Hp Hg Hsafe). reflexivity.
    + apply handler_raises_early, retrieve_parse_error, Hp.
Qed.

(** C7: an input without the marker that is all digits, or starts with
    [10.] and contains a slash, never parses as an HTTP or HTTPS URL, is a
    bibliographic reference, and is served by [process_doi_or_pmid]
    directly: that call is the first thing the handler does, although the
    safety check, had it been asked, rejects every such input. *)
Theorem bibliographic_dispatch (request : web_app.Request) (w : World) :
  web_app.method request = "POST" ->
  Str.contains "github.com" (Spec.input_path_of request) = false ->
  (Str.startswith "10." (Spec.input_path_of request)
   && Str.contains "/" (Spec.input_path_of request)
   || Str.isdigit (Spec.input_path_of request)) = true ->
  Spec.is_http_url (Spec.input_path_of request) = false
  /\ Spec.Classify (Spec.input_path_of request)
     = Spec.BibliographicRef (Spec.input_path_of request)
  /\ web_app._is_safe_url (Spec.input_path_of request) = Returns false
  /\ index request w =
     Spec.served_by collaborators web_app.process_doi_or_pmid
       (Spec.input_path_of request) w.
Proof.
  intros Hm Hg Hb. set (s := Spec.input_path_of request) in *.
  change (Spec.is_bibliographic s = true) in Hb.
  pose proof (urlparse_bibliographic _ Hb) as Hp.
  assert (Hh : Spec.is_http_url s = false)
    by (unfold Spec.is_http_url; rewrite Hp; reflexivity).
  split; [exact Hh|]. split; [|split].
  - unfold Spec.Classify. rewrite Hg, Hh, Hb. reflexivity.
  - rewrite is_safe_url_unfold, Hp. reflexivity.
  - rewrite index_post by assumption. fold s. unfold Spec.served_by.
    apply handler_ext.
    rewrite (retrieve_other _ _ _ Hp Hg) by reflexivity.
    rewrite Hb. reflexivity.
Qed.

(** C8: an input that matches none of the rules (no marker, not an HTTP or
    HTTPS URL, not a bibliographic identifier) gets a page with an error
    message and nothing else: the handler returns, makes no call (no
    retrieval, no file read) and leaves the world as it was.  The message
    is the local-path rejection, or the parse error's when [urlparse]
    raised on the input. *)
Theorem unmatched_input_rejected (request : web_app.Request) (w : World) :
  web_app.method request = "POST" ->
  Spec.Classify (Spec.input_path_of request) = Spec.Rejected ->
  index request w =
  (Returns match urllib.urlparse (Spec.input_path_of request) with
           | Returns _ => web_app.local_path_rejection
           | Raises e => Spec.error_page e
           end, w, []).
Proof.
  intros Hm Hc. rewrite index_post by assumption.
  set (s := Spec.input_path_of request) in *.
  destruct (classify_rejected _ Hc) as (Hg & Hh & Hb).
  destruct (urllib.urlparse s) as [parsed|e] eqn:Hp.
  - apply handler_stops_early.
    unfold Spec.is_http_url in Hh. rewrite Hp in Hh.
    rewrite (retrieve_other _ _ _ Hp Hg Hh), Hb. reflexivity.
  - apply handler_raises_early, retrieve_parse_error, Hp.
Qed.

(** *** Failures of collaborators *)

Lemma reports_ret {A : Type} (a : A) :
  Spec.reports_failures (mret a : @web_app.M World A).
Proof. intros w ev e Hin. inversion Hin. Qed.

Lemma reports_lift {A : Type} (p : py A) :
  Spec.reports_failures (web_app.lift p : @web_app.M World A).
Proof. intros w ev e Hin. unfold web_app.lift in Hin. destruct p; inversion Hin. Qed.

Lemma reports_return {A : Type} (r : web_app.Response) :
  Spec.reports_failures (web_app.return_ r : @web_app.M World A).
Proof. intros w ev e Hin. inversion Hin. Qed.

Lemma reports_call (c : web_app.Call) :
  Spec.reports_failures (web_app.call collaborators c).
Proof.
  intros w ev e. unfold web_app.call.
  destruct (collaborators c w) as [[a|e0] w']; cbn [fst snd];
    intros Hin; apply list_elem_of_singleton in Hin as ->; cbn; congruence.
Qed.

Lemma reports_bind {A B : Type}
    (m : @web_app.M World A) (k : A -> @web_app.M World B) :
  Spec.reports_failures m -> (forall a, Spec.reports_failures (k a)) ->
  Spec.reports_failures (x ← m; k x).
Proof.
  intros Hm Hk w ev e. specialize (Hm w). unfold mbind, web_app.M_bind.
  destruct (m w) as [[[a|r|e0] w'] log]; cbn [fst snd] in *.
  - specialize (Hk a w'). destruct (k a w') as [[o w''] log']. cbn [fst snd] in *.
    intros Hin Hev. apply elem_of_app in Hin as [Hin|Hin].
    + specialize (Hm _ _ Hin Hev). discriminate.
    + exact (Hk _ _ Hin Hev).
  - intros Hin Hev. specialize (Hm _ _ Hin Hev). discriminate.
  - intros Hin Hev. specialize (Hm _ _ Hin Hev). congruence.
Qed.

Ltac reports :=
  repeat first
    [ apply reports_ret | apply reports_lift | apply reports_return
    | match goal with
      | |- @Spec.reports_failures _ _ (web_app.call _ ?c) => exact (reports_call c)
      end
    | apply reports_bind; [|intros ?]
    | match goal with
      | |- @Spec.reports_failures _ _ (if ?b then _ else _) => destruct b
      end ].

Lemma reports_write_outputs (final_output : string) :
  Spec.reports_failures (write_outputs final_output).
Proof. unfold web_app.write_outputs. reports. Qed.

Lemma reports_retrieve (s : string) : Spec.reports_failures (retrieve s).
Proof. unfold web_app.retrieve. reports. Qed.

(** C9: the handler always returns a page, never an exception; and whenever
    a call to a collaborator (a retrieval backend, the crawler, the
    normalisation routine, the token counter, a file write or read, the
    clipboard) raised during the request, the page shows [Error: ] followed
    by that exception's own message. *)
Theorem collaborator_errors_reported (request : web_app.Request) (w : World) :
  exists page,
    (index request w).1.1 = Returns page
    /\ forall ev e,
         ev ∈ (index request w).2 -> web_app.ev_raised ev = Some e ->
         page = web_app.render_template_string
                  (Some ("Error: " +:+ exn_str e)) None None.
Proof.
  destruct (String.eqb_spec (web_app.method request) "POST") as [Hm|Hm].
  - rewrite index_post by assumption.
    set (body := x ← retrieve (Spec.input_path_of request); write_outputs x).
    assert (Hrep : Spec.reports_failures body)
      by (apply reports_bind; [apply reports_retrieve|apply reports_write_outputs]).
    specialize (Hrep w).
    unfold web_app.view, web_app.try_except_M, web_app.on_error, web_app.return_.
    destruct (body w) as [[[a|r|e0] w'] log]; cbn [fst snd] in *.
    + destruct a.
    + exists r. split; [reflexivity|]. intros ev e Hin Hev.
      specialize (Hrep _ _ Hin Hev). discriminate.
    + eexists. split; [reflexivity|]. intros ev e Hin Hev.
      rewrite app_nil_r in Hin. specialize (Hrep _ _ Hin Hev).
      injection Hrep as ->. reflexivity.
  - rewrite index_get by assumption. eexists. split; [reflexivity|].
    intros ev e Hin. inversion Hin.
Qed.

End HandlerFacts.

(** ** The download gatekeeper *)

Section DownloadFacts.

Variable OUTPUT_DIR : string.
Variable fs : gmap string web_app.FsNode.

Abbreviation download := (web_app.download OUTPUT_DIR fs).

Lemma rpartition_tail (c : ascii) (s h t : string) (f : bool) :
  Str.rpartition c s = (h, f, t) ->
  Str.has_char c t = false /\ (f = false -> t = s).
Proof.
  revert h f t. induction s as [|a s IH]; intros h f t; cbn [Str.rpartition].
  - intros [= <- <- <-]. auto.
  - destruct (Str.rpartition c s) as [[h' f'] t'].
    destruct (IH _ _ _ eq_refl) as [Hno Hsame].
    destruct f'.
    + intros [= <- <- <-]. split; [exact Hno|discriminate].
    + specialize (Hsame eq_refl). subst t'.
      destruct (Ascii.eqb a c) eqn:Hac; intros [= <- <- <-].
      * split; [exact Hno|discriminate].
      * split; [|reflexivity]. cbn [Str.has_char]. rewrite Hac, Hno. reflexivity.
Qed.

(** [basename] strips every directory component. *)
Lemma basename_no_slash (p : string) : Str.has_char "/" (os_path.basename p) = false.
Proof.
  unfold os_path.basename.
  destruct (Str.rpartition "/" p) as [[h f] t] eqn:Hp.
  exact (proj1 (rpartition_tail _ _ _ _ _ Hp)).
Qed.

Lemma allowed_names (name : string) :
  name ∈ web_app.ALLOWED_DOWNLOAD_FILES <->
  name = "uncompressed_output.txt" \/ name = "compressed_output.txt".
Proof. unfold web_app.ALLOWED_DOWNLOAD_FILES. set_solver. Qed.

(** An allow-listed name is joined to the output directory as a direct
    child. *)
Lemma join_allowed (name : string) :
  name ∈ web_app.ALLOWED_DOWNLOAD_FILES ->
  os_path.join OUTPUT_DIR name = OUTPUT_DIR +:+ os_path.sep_after OUTPUT_DIR +:+ name.
Proof. intros [->| ->]%allowed_names; reflexivity. Qed.

Lemma download_unfold (request : web_app.Request) (filename : string) :
  web_app.args request !! "filename" = Some filename ->
  filename <> EmptyString ->
  download request =
  if bool_decide (os_path.basename filename ∉ web_app.ALLOWED_DOWNLOAD_FILES)
  then (web_app.abort 403, [])
  else
    let safe_path := os_path.join OUTPUT_DIR (os_path.basename filename) in
    if negb (web_app.isfile fs safe_path) then (web_app.abort 404, [web_app.IsFile safe_path])
    else (web_app.send_file safe_path (web_app.file_data fs safe_path),
          [web_app.IsFile safe_path; web_app.SendFile safe_path]).
Proof.
  intros Ha Hne. unfold web_app.download. rewrite Ha.
  destruct filename; [contradiction|reflexivity].
Qed.

(** A non-empty name whose last component is not allow-listed is refused
    before the disk is looked at. *)
Lemma download_forbidden (request : web_app.Request) (filename : string) :
  web_app.args request !! "filename" = Some filename ->
  filename <> EmptyString ->
  os_path.basename filename ∉ web_app.ALLOWED_DOWNLOAD_FILES ->
  download request = (web_app.abort 403, []).
Proof.
  intros Ha Hne Hb. rewrite (download_unfold _ _ Ha Hne).
  rewrite bool_decide_eq_true_2 by assumption. reflexivity.
Qed.

(** Every path [download] looks at is an allow-listed name directly under
    the output directory. *)
Lemma download_accesses (request : web_app.Request) (a : web_app.FsAccess) :
  a ∈ (download request).2 ->
  exists name,
    name ∈ web_app.ALLOWED_DOWNLOAD_FILES
    /\ web_app.access_path a = OUTPUT_DIR +:+ os_path.sep_after OUTPUT_DIR +:+ name.
Proof.
  unfold web_app.download.
  destruct (web_app.args request !! "filename") as [filename|]; [|intros H; inversion H].
  destruct (Str.is_empty filename); [intros H; inversion H|].
  case_bool_decide as Hb; [intros H; inversion H|].
  intros Hin. exists (os_path.basename filename). split; [exact Hb|].
  rewrite <- (join_allowed _ Hb).
  destruct (negb _); cbn [snd] in Hin.
  - apply list_elem_of_singleton in Hin as ->. reflexivity.
  - apply elem_of_cons in Hin as [->|Hin]; [reflexivity|].
    apply list_elem_of_singleton in Hin as ->. reflexivity.
Qed.

(** C1 (as amended): for a non-empty requested filename, [download] keeps
    the text after the last slash, answers 403 with no file-system access
    unless that name is one of the two allow-listed ones, and otherwise
    looks only at that name directly under the output directory: 404 when
    no regular file is there, the content of the file when there is one.
    Whatever the request, every path it touches is an allow-listed name
    directly under the output directory. *)
Theorem download_gatekeeper (request : web_app.Request) (filename : string) :
  web_app.args request !! "filename" = Some filename ->
  filename <> EmptyString ->
  let basename := os_path.basename filename in
  let safe_path := OUTPUT_DIR +:+ os_path.sep_after OUTPUT_DIR +:+ basename in
  Str.has_char "/" basename = false
  /\ (basename ∉ web_app.ALLOWED_DOWNLOAD_FILES ->
      download request = (web_app.abort 403, []))
  /\ (basename ∈ web_app.ALLOWED_DOWNLOAD_FILES ->
      (forall data,
         fs !! safe_path = Some (web_app.RegularFile data) ->
         download request =
         (web_app.send_file safe_path data,
          [web_app.IsFile safe_path; web_app.SendFile safe_path]))
      /\ (web_app.isfile fs safe_path = false ->
          download request = (web_app.abort 404, [web_app.IsFile safe_path])))
  /\ (forall a,
        a ∈ (download request).2 ->
        exists name,
          name ∈ web_app.ALLOWED_DOWNLOAD_FILES
          /\ web_app.access_path a
             = OUTPUT_DIR +:+ os_path.sep_after OUTPUT_DIR +:+ name).
Proof.
  intros Ha Hne. cbv zeta.
  split; [apply basename_no_slash|].
  split; [apply download_forbidden; assumption|].
  split; [|apply download_accesses].
  intros Hb. rewrite (download_unfold _ _ Ha Hne).
  rewrite bool_decide_eq_false_2 by (intros Hn; exact (Hn Hb)).
  cbv zeta. rewrite (join_allowed _ Hb).
  split.
  - intros data Hd. unfold web_app.isfile, web_app.file_data. rewrite Hd. reflexivity.
  - intros ->. reflexivity.
Qed.

(** C2 (as amended): a requested name that contains a slash and whose last
    component is not allow-listed is answered 403 before any file-system
    access. *)
Theorem download_traversal_forbidden (request : web_app.Request) (filename : string) :
  web_app.args request !! "filename" = Some filename ->
  Str.has_char "/" filename = true ->
  os_path.basename filename ∉ web_app.ALLOWED_DOWNLOAD_FILES ->
  download request = (web_app.abort 403, []).
Proof.
  intros Ha Hs Hb. apply download_forbidden with (filename := filename); try assumption.
  intros ->. discriminate Hs.
Qed.

(** C10: with no [filename] argument, or an empty one, [download] answers
    404 without looking at the allow-list or the disk; such a request is
    never answered 403. *)
Theorem download_missing_filename (request : web_app.Request) :
  web_app.args request !! "filename" = None
  \/ web_app.args request !! "filename" = Some EmptyString ->
  download request = (web_app.abort 404, [])
  /\ (download request).1 <> web_app.abort 403.
Proof.
  intros [Ha|Ha]; unfold web_app.download; rewrite Ha; split; (reflexivity || discriminate).
Qed.

End DownloadFacts.

(** ** Worked requests

    The statements above at concrete requests, with the collaborators and
    the disk of [Scenario]. *)

Section Worked.

Abbreviation coll := Scenario.collaborators.
Abbreviation serve := (web_app.download Scenario.OUTPUT_DIR Scenario.disk).

(** The empty filename is not on the allow-list, and is answered 404, not
    403. *)
Lemma download_empty_filename_not_found :
  (os_path.basename EmptyString ∉ web_app.ALLOWED_DOWNLOAD_FILES)
  /\ serve (Scenario.get_download EmptyString) = (web_app.abort 404, []).
Proof.
  split; [|reflexivity].
  intros [H|H]%allowed_names; discriminate H.
Qed.

(** A name with a directory part and an allow-listed last component is
    served from the output directory. *)
Lemma download_traversal_served :
  Str.has_char "/" "../uncompressed_output.txt" = true
  /\ serve (Scenario.get_download "../uncompressed_output.txt")
     = (web_app.send_file "/srv/onefilellm/uncompressed_output.txt" "Text Of Repo",
        [web_app.IsFile "/srv/onefilellm/uncompressed_output.txt";
         web_app.SendFile "/srv/onefilellm/uncompressed_output.txt"]).
Proof. split; vm_compute; reflexivity. Qed.

Lemma download_gatekeeper_example :
  serve (Scenario.get_download "uncompressed_output.txt")
  = (web_app.send_file "/srv/onefilellm/uncompressed_output.txt" "Text Of Repo",
     [web_app.IsFile "/srv/onefilellm/uncompressed_output.txt";
      web_app.SendFile "/srv/onefilellm/uncompressed_output.txt"])
  /\ serve (Scenario.get_download "compressed_output.txt")
     = (web_app.abort 404, [web_app.IsFile "/srv/onefilellm/compressed_output.txt"])
  /\ serve (Scenario.get_download "/srv/onefilellm/templates")
     = (web_app.abort 403, []).
Proof.
  split; [|split].
  - destruct (download_gatekeeper Scenario.OUTPUT_DIR Scenario.disk
                (Scenario.get_download "uncompressed_output.txt")
                "uncompressed_output.txt" eq_refl ltac:(discriminate))
      as (_ & _ & H & _).
    destruct H as [H _]; [apply allowed_names; left; reflexivity|].
    apply (H "Text Of Repo"). vm_compute. reflexivity.
  - destruct (download_gatekeeper Scenario.OUTPUT_DIR Scenario.disk
                (Scenario.get_download "compressed_output.txt")
                "compressed_output.txt" eq_refl ltac:(discriminate))
      as (_ & _ & H & _).
    destruct H as [_ H]; [apply allowed_names; right; reflexivity|].
    apply H. vm_compute. reflexivity.
  - destruct (download_gatekeeper Scenario.OUTPUT_DIR Scenario.disk
                (Scenario.get_download "/srv/onefilellm/templates")
                "/srv/onefilellm/templates" eq_refl ltac:(discriminate))
      as (_ & H & _).
    apply H. intros [E|E]%allowed_names; vm_compute in E; discriminate E.
Defined.

Lemma download_traversal_forbidden_example :
  serve (Scenario.get_download "../../etc/passwd") = (web_app.abort 403, []).
Proof.
  apply (download_traversal_forbidden Scenario.OUTPUT_DIR Scenario.disk
           (Scenario.get_download "../../etc/passwd") "../../etc/passwd").
  - reflexivity.
  - reflexivity.
  - intros [E|E]%allowed_names; vm_compute in E; discriminate E.
Defined.

Lemma download_missing_filename_example :
  serve (Scenario.post "10.1234/example") = (web_app.abort 404, [])
  /\ serve (Scenario.get_download EmptyString) = (web_app.abort 404, []).
Proof.
  split.
  - apply (download_missing_filename Scenario.OUTPUT_DIR Scenario.disk
             (Scenario.post "10.1234/example")).
    left. reflexivity.
  - apply (download_missing_filename Scenario.OUTPUT_DIR Scenario.disk
             (Scenario.get_download EmptyString)).
    right. reflexivity.
Defined.

Lemma is_safe_url_fails_closed_example :
  web_app._is_safe_url "http://[::1" = Returns false
  /\ web_app._is_safe_url "mailto:root" = Returns false
  /\ web_app._is_safe_url "ftp://LOCALHOST/pub" = Returns false
  /\ web_app._is_safe_url "//metadata.google.internal/computeMetadata/v1/" = Returns false
  /\ web_app._is_safe_url "http://127.0.0.1:5000/" = Returns false
  /\ web_app._is_safe_url "https://10.1.2.3/" = Returns false
  /\ web_app._is_safe_url "http://169.254.169.254/latest/meta-data/" = Returns false
  /\ web_app._is_safe_url "http://user@192.168.0.1/router" = Returns false.
Proof.
  repeat apply conj.
  - destruct (is_safe_url_fails_closed "http://[::1") as (_ & H & _).
    apply (H (ValueError "Invalid IPv6 URL")). reflexivity.
  - destruct (is_safe_url_fails_closed "mailto:root") as (_ & _ & H).
    destruct (H {| urllib.scheme := "mailto"; urllib.netloc := EmptyString |} eq_refl)
      as (H0 & _).
    apply H0. reflexivity.
  - destruct (is_safe_url_fails_closed "ftp://LOCALHOST/pub") as (_ & _ & H).
    destruct (H {| urllib.scheme := "ftp"; urllib.netloc := "LOCALHOST" |} eq_refl)
      as (_ & H0 & _).
    apply H0. reflexivity.
  - destruct (is_safe_url_fails_closed "//metadata.google.internal/computeMetadata/v1/")
      as (_ & _ & H).
    destruct (H {| urllib.scheme := EmptyString;
                   urllib.netloc := "metadata.google.internal" |} eq_refl)
      as (_ & _ & H0 & _).
    apply H0. reflexivity.
  - destruct (is_safe_url_fails_closed "http://127.0.0.1:5000/") as (_ & _ & H).
    destruct (H {| urllib.scheme := "http"; urllib.netloc := "127.0.0.1:5000" |} eq_refl)
      as (_ & _ & _ & H0).
    apply (H0 "127.0.0.1" (Spec.v4 127 0 0 1)); [reflexivity | reflexivity |].
    unfold Spec.in_denied_block, Spec.v4. lia.
  - destruct (is_safe_url_fails_closed "https://10.1.2.3/") as (_ & _ & H).
    destruct (H {| urllib.scheme := "https"; urllib.netloc := "10.1.2.3" |} eq_refl)
      as (_ & _ & _ & H0).
    apply (H0 "10.1.2.3" (Spec.v4 10 1 2 3)); [reflexivity | reflexivity |].
    unfold Spec.in_denied_block, Spec.v4. lia.
  - destruct (is_safe_url_fails_closed "http://169.254.169.254/latest/meta-data/")
      as (_ & _ & H).
    destruct (H {| urllib.scheme := "http"; urllib.netloc := "169.254.169.254" |} eq_refl)
      as (_ & _ & _ & H0).
    apply (H0 "169.254.169.254" (Spec.v4 169 254 169 254)); [reflexivity | reflexivity |].
    unfold Spec.in_denied_block, Spec.v4. lia.
  - destruct (is_safe_url_fails_closed "http://user@192.168.0.1/router") as (_ & _ & H).
    destruct (H {| urllib.scheme := "http"; urllib.netloc := "user@192.168.0.1" |} eq_refl)
      as (_ & _ & _ & H0).
    apply (H0 "192.168.0.1" (Spec.v4 192 168 0 1)); [reflexivity | reflexivity |].
    unfold Spec.in_denied_block, Spec.v4. lia.
Defined.

Lemma is_safe_url_domain_name_example :
  web_app._is_safe_url "http://intranet.corp.example:8080/admin" = Returns true.
Proof.
  apply (is_safe_url_domain_name "http://intranet.corp.example:8080/admin"
           {| urllib.scheme := "http"; urllib.netloc := "intranet.corp.example:8080" |}
           "intranet.corp.example"
           (ValueError
              "'intranet.corp.example' does not appear to be an IPv4 or IPv6 address")).
  - reflexivity.
  - reflexivity.
  - discriminate.
  - discriminate.
  - reflexivity.
Defined.

(** A repository URL that does not parse: it carries the marker, so it is
    network-bound, and the safety check rejects it; the page shows the
    parse error, not the security-rejection message. *)
Lemma unsafe_input_parse_error_message :
  Spec.network_bound (Spec.Classify "http://[github.com") = true
  /\ web_app._is_safe_url "http://[github.com" = Returns false
  /\ web_app.index coll (Scenario.post "http://[github.com") ∅
     = (Returns (web_app.render_template_string (Some "Error: Invalid IPv6 URL") None None),
        ∅, [])
  /\ web_app.render_template_string (Some "Error: Invalid IPv6 URL") None None
     <> web_app.security_rejection.
Proof.
  repeat apply conj; try (vm_compute; reflexivity).
  discriminate.
Qed.

Lemma unsafe_input_touches_nothing_example :
  Spec.Classify "http://169.254.169.254/latest/meta-data/"
  = Spec.GenericWebRef "http://169.254.169.254/latest/meta-data/"
  /\ web_app.index coll (Scenario.post "http://169.254.169.254/latest/meta-data/") ∅
     = (Returns web_app.security_rejection, ∅, []).
Proof.
  split; [vm_compute; reflexivity|].
  apply (unsafe_input_touches_nothing coll
           (Scenario.post "http://169.254.169.254/latest/meta-data/") ∅).
  - reflexivity.
  - vm_compute. reflexivity.
  - vm_compute. reflexivity.
Defined.

(** An input with both segments goes to the pull-request backend. *)
Lemma github_marker_classification_example :
  Spec.Classify "https://github.com/o/r/pull/7/issues/"
  = Spec.PullRequestRef "https://github.com/o/r/pull/7/issues/"
  /\ web_app.index coll (Scenario.post "https://github.com/o/r/pull/7/issues/") ∅
     = Spec.served_by coll web_app.process_github_pull_request
         "https://github.com/o/r/pull/7/issues/" ∅.
Proof.
  destruct (github_marker_classification coll
              (Scenario.post "https://github.com/o/r/pull/7/issues/") ∅
              eq_refl ltac:(vm_compute; reflexivity))
    as (Hc & Hsafe & _).
  split; [exact Hc|].
  destruct (Hsafe ltac:(vm_compute; reflexivity)) as (backend & _ & -> & Hi).
  exact Hi.
Defined.

Lemma bibliographic_dispatch_example :
  web_app._is_safe_url "10.1234/example" = Returns false
  /\ web_app.index coll (Scenario.post "10.1234/example") ∅
     = Spec.served_by coll web_app.process_doi_or_pmid "10.1234/example" ∅
  /\ web_app.index coll (Scenario.post "12345678") ∅
     = Spec.served_by coll web_app.process_doi_or_pmid "12345678" ∅.
Proof.
  destruct (bibliographic_dispatch coll (Scenario.post "10.1234/example") ∅
              eq_refl ltac:(vm_compute; reflexivity) ltac:(vm_compute; reflexivity))
    as (_ & _ & Hs & Hi).
  destruct (bibliographic_dispatch coll (Scenario.post "12345678") ∅
              eq_refl ltac:(vm_compute; reflexivity) ltac:(vm_compute; reflexivity))
    as (_ & _ & _ & Hi').
  repeat apply conj; assumption.
Defined.

Lemma unmatched_input_rejected_example :
  web_app.index coll (Scenario.post "/etc/passwd") ∅
  = (Returns web_app.local_path_rejection, ∅, [])
  /\ web_app.index coll (Scenario.post "C:\data") ∅
     = (Returns web_app.local_path_rejection, ∅, []).
Proof.
  split.
  - apply (unmatched_input_rejected coll (Scenario.post "/etc/passwd") ∅).
    + reflexivity.
    + vm_compute. reflexivity.
  - apply (unmatched_input_rejected coll (Scenario.post "C:\data") ∅).
    + reflexivity.
    + vm_compute. reflexivity.
Defined.

(** The issue backend of [Scenario] fails; its message reaches the page. *)
Lemma collaborator_errors_reported_example :
  (web_app.index coll (Scenario.post "https://github.com/o/r/issues/3") ∅).1.1
  = Returns (web_app.render_template_string
               (Some "Error: API rate limit exceeded") None None).
Proof.
  destruct (collaborator_errors_reported coll
              (Scenario.post "https://github.com/o/r/issues/3") ∅)
    as (page & Hret & Hev).
  rewrite Hret. f_equal.
  apply (Hev {| web_app.ev_call :=
                  web_app.Retrieve web_app.process_github_issue
                    "https://github.com/o/r/issues/3";
                web_app.ev_raised := Some (OtherException "API rate limit exceeded") |}
            (OtherException "API rate limit exceeded")).
  - vm_compute. apply list_elem_of_here.
  - reflexivity.
Defined.

End Worked.

(** * Further properties of the handler *)

Section HandlerLog.

Context {World : Type}.
Variable collaborators : forall c : web_app.Call, World -> py (web_app.answer c) * World.

Abbreviation retrieve := (web_app.retrieve collaborators "processed_urls.txt").
Abbreviation write_outputs :=
  (web_app.write_outputs collaborators "uncompressed_output.txt" "compressed_output.txt").
Abbreviation index := (web_app.index collaborators).
Abbreviation call := (web_app.call collaborators).

(** The handler's log is the log of its [try] block. *)
Lemma view_log (body : web_app.M Empty_set) (w : World) :
  (web_app.view (web_app.try_except_M body web_app.on_error) w).2 = (body w).2.
Proof.
  unfold web_app.view, web_app.try_except_M, web_app.on_error, web_app.return_.
  destruct (body w) as [[[a|r|e] w'] log]; cbn [fst snd].
  - destruct a.
  - reflexivity.
  - apply app_nil_r.
Qed.

Lemma index_log (request : web_app.Request) (w : World) :
  (index request w).2 =
  if String.eqb (web_app.method request) "POST"
  then ((x ← retrieve (Spec.input_path_of request); write_outputs x) w).2
  else [].
Proof.
  destruct (String.eqb_spec (web_app.method request) "POST") as [Hm|Hm].
  - rewrite index_post by assumption. apply view_log.
  - rewrite index_get by assumption. reflexivity.
Qed.

(** *** What is asked of the collaborators *)

Lemma only_ret {A : Type} (P : web_app.Call -> Prop) (a : A) :
  Trace.calls_only P (mret a : @web_app.M World A).
Proof. intros w ev Hin. inversion Hin. Qed.

Lemma only_return {A : Type} (P : web_app.Call -> Prop) (r : web_app.Response) :
  Trace.calls_only P (web_app.return_ r : @web_app.M World A).
Proof. intros w ev Hin. inversion Hin. Qed.

Lemma only_call (P : web_app.Call -> Prop) (c : web_app.Call) :
  P c -> Trace.calls_only P (call c).
Proof.
  intros Hc w ev. unfold web_app.call.
  destruct (collaborators c w) as [[a|e] w']; cbn [snd];
    intros Hin; apply list_elem_of_singleton in Hin as ->; exact Hc.
Qed.

Lemma only_bind {A B : Type} (P : web_app.Call -> Prop)
    (m : @web_app.M World A) (k : A -> @web_app.M World B) :
  Trace.calls_only P m -> (forall a, Trace.calls_only P (k a)) ->
  Trace.calls_only P (x ← m; k x).
Proof.
  intros Hm Hk w ev. specialize (Hm w). unfold mbind, web_app.M_bind.
  destruct (m w) as [[[a|r|e] w'] log]; cbn [snd] in *; [|exact (Hm ev)..].
  specialize (Hk a w'). destruct (k a w') as [[o w''] log']. cbn [snd] in *.
  intros [Hin|Hin]%elem_of_app; [exact (Hm _ Hin)|exact (Hk _ Hin)].
Qed.

(** After a pure library call the rest runs on the very value it
    returned. *)
Lemma only_bind_lift {A B : Type} (P : web_app.Call -> Prop)
    (p : py A) (k : A -> @web_app.M World B) :
  (forall a, p = Returns a -> Trace.calls_only P (k a)) ->
  Trace.calls_only P (x ← web_app.lift p; k x).
Proof.
  intros Hk w ev. destruct p as [a|e].
  - rewrite bind_lift_returns. exact (Hk a eq_refl w ev).
  - intros Hin. inversion Hin.
Qed.

Ltac only_calls :=
  repeat first
    [ apply only_ret | apply only_return
    | apply only_bind_lift; intros ? ?
    | apply only_bind; [|intros ?]
    | match goal with
      | |- @Trace.calls_only _ _ _ (if ?b then _ else _) => destruct b eqn:?
      | |- @Trace.calls_only _ _ _ (web_app.call _ ?c) => apply (only_call _ c)
      end ].

Lemma only_index (P : web_app.Call -> Prop) (request : web_app.Request) :
  Trace.calls_only P (retrieve (Spec.input_path_of request)) ->
  (forall x, Trace.calls_only P (write_outputs x)) ->
  forall w ev, ev ∈ (index request w).2 -> P (web_app.ev_call ev).
Proof.
  intros Hr Hw w ev. rewrite index_log.
  destruct (String.eqb _ _); [|intros Hin; inversion Hin].
  apply (only_bind P); assumption.
Qed.

(** X1: whatever is submitted, a URL backend or the crawler is only ever called
    after [_is_safe_url] returned [True] on the input, and on that very
    input; the one backend called without the check is
    [process_doi_or_pmid]; the crawler is always asked for depth 2 with
    PDFs included and EPUBs ignored. *)
Theorem fetch_is_gated (request : web_app.Request) (w : World) (ev : web_app.Event) :
  ev ∈ (index request w).2 ->
  Trace.gated (Spec.input_path_of request) (web_app.ev_call ev).
Proof.
  apply only_index.
  - unfold web_app.retrieve. only_calls; cbn [Trace.gated]; try exact I;
      repeat match goal with
             | H : negb ?b = false |- _ => destruct b; [clear H|discriminate H]
             end;
      auto 10.
  - intros x. unfold web_app.write_outputs. only_calls; exact I.
Qed.

Ltac fixed_name :=
  let path := fresh "path" in
  let Hp := fresh "Hp" in
  intros path Hp; unfold Trace.OUTPUT_NAMES;
  repeat (apply elem_of_cons in Hp as [->|Hp]; [repeat constructor|]);
  inversion Hp.

(** X2: the file names handed to the collaborators never come from the request:
    every path [index] writes, normalises or reads is one of its three
    fixed names. *)
Theorem paths_are_fixed (request : web_app.Request) (w : World)
    (ev : web_app.Event) (path : string) :
  ev ∈ (index request w).2 ->
  path ∈ Trace.paths_of (web_app.ev_call ev) ->
  path ∈ Trace.OUTPUT_NAMES.
Proof.
  intros Hin. revert path.
  apply (only_index (fun c => forall path, path ∈ Trace.paths_of c -> path ∈ Trace.OUTPUT_NAMES)
           request) with (w := w); [| |exact Hin].
  - unfold web_app.retrieve. only_calls; cbn [Trace.paths_of]; fixed_name.
  - intros x. unfold web_app.write_outputs. only_calls; cbn [Trace.paths_of]; fixed_name.
Qed.

(** *** One fetch, and first *)

Lemma first_ret {A : Type} (a : A) :
  Trace.fetches_first (mret a : @web_app.M World A).
Proof. intros w. constructor. Qed.

Lemma first_return {A : Type} (r : web_app.Response) :
  Trace.fetches_first (web_app.return_ r : @web_app.M World A).
Proof. intros w. constructor. Qed.

Lemma first_call (c : web_app.Call) : Trace.fetches_first (call c).
Proof.
  intros w. unfold web_app.call.
  destruct (collaborators c w) as [[a|e] w']; constructor.
Qed.

Lemma first_bind_lift {A B : Type} (p : py A) (k : A -> @web_app.M World B) :
  (forall a, Trace.fetches_first (k a)) ->
  Trace.fetches_first (x ← web_app.lift p; k x).
Proof.
  intros Hk w. destruct p as [a|e].
  - rewrite bind_lift_returns. apply Hk.
  - constructor.
Qed.

Lemma elem_of_tail {A : Type} (x : A) (l : list A) : x ∈ tail l -> x ∈ l.
Proof. destruct l; [trivial|]. apply list_elem_of_further. Qed.

Lemma first_bind_tail {A B : Type}
    (m : @web_app.M World A) (k : A -> @web_app.M World B) :
  Trace.fetches_first m ->
  (forall a, Trace.calls_only (fun c => Trace.is_retrieval c = false) (k a)) ->
  Trace.fetches_first (x ← m; k x).
Proof.
  intros Hm Hk w. specialize (Hm w). unfold mbind, web_app.M_bind.
  destruct (m w) as [[[a|r|e] w'] log]; cbn [snd] in *; [|exact Hm..].
  specialize (Hk a w'). destruct (k a w') as [[o w''] log']. cbn [snd] in *.
  assert (Hlog' : Forall (fun ev => Trace.is_retrieval (web_app.ev_call ev) = false) log')
    by (apply Forall_forall; exact Hk).
  destruct log as [|ev log]; cbn [tail app] in *.
  - apply Forall_forall. intros x Hx. apply Hk, elem_of_tail, Hx.
  - apply Forall_app. split; assumption.
Qed.

Ltac fetch_first :=
  repeat first
    [ apply first_ret | apply first_return
    | apply first_bind_lift; intros ?
    | match goal with
      | |- @Trace.fetches_first _ _ (if ?b then _ else _) => destruct b
      | |- @Trace.fetches_first _ _ (web_app.call _ ?c) => exact (first_call c)
      end ].

Lemma first_retrieve (s : string) : Trace.fetches_first (retrieve s).
Proof.
  unfold web_app.retrieve. fetch_first.
  apply first_bind_tail; [exact (first_call _)|].
  intros crawl_result. only_calls; reflexivity.
Qed.

(** X3: a request fetches at most once, and before anything else: past the
    first entry of its log there is no call to a backend or to the
    crawler (no second attempt, no fallback to another backend). *)
Theorem fetch_once_and_first (request : web_app.Request) (w : World) :
  Forall (fun ev => Trace.is_retrieval (web_app.ev_call ev) = false)
         (tail (index request w).2).
Proof.
  rewrite index_log. destruct (String.eqb _ _); [|constructor].
  apply first_bind_tail; [apply first_retrieve|].
  intros x. unfold web_app.write_outputs. only_calls; reflexivity.
Qed.

(** *** Nothing after a failure *)

Lemma Forall_removelast {A : Type} (P : A -> Prop) (l : list A) :
  Forall P l -> Forall P (removelast l).
Proof.
  induction 1 as [|x l Hx Hl IH]; [constructor|].
  cbn [removelast]. destruct l; [constructor|]. constructor; assumption.
Qed.

Lemma stops_ret {A : Type} (a : A) :
  Trace.stops_at_failure (mret a : @web_app.M World A).
Proof. intros w. split; [constructor|intros _; constructor]. Qed.

Lemma stops_return {A : Type} (r : web_app.Response) :
  Trace.stops_at_failure (web_app.return_ r : @web_app.M World A).
Proof. intros w. split; [constructor|intros _; constructor]. Qed.

Lemma stops_lift {A : Type} (p : py A) :
  Trace.stops_at_failure (web_app.lift p : @web_app.M World A).
Proof. intros w. unfold web_app.lift. destruct p; (split; [constructor|intros _; constructor]). Qed.

Lemma stops_call (c : web_app.Call) : Trace.stops_at_failure (call c).
Proof.
  intros w. unfold web_app.call.
  destruct (collaborators c w) as [[a|e] w']; cbn [fst snd removelast].
  - split; [constructor|]. intros _. constructor; [reflexivity|constructor].
  - split; [constructor|]. intros H. destruct (H e eq_refl).
Qed.

Lemma stops_bind {A B : Type}
    (m : @web_app.M World A) (k : A -> @web_app.M World B) :
  Trace.stops_at_failure m -> (forall a, Trace.stops_at_failure (k a)) ->
  Trace.stops_at_failure (x ← m; k x).
Proof.
  intros Hm Hk w. specialize (Hm w). unfold mbind, web_app.M_bind.
  destruct (m w) as [[[a|r|e] w'] log]; cbn [fst snd] in *.
  - destruct Hm as [_ Hm]. specialize (Hm ltac:(discriminate)).
    specialize (Hk a w'). destruct (k a w') as [[o w''] log']. cbn [fst snd] in *.
    destruct Hk as [Hpre Hall]. split.
    + destruct log' as [|ev log'].
      * rewrite app_nil_r. apply Forall_removelast, Hm.
      * rewrite removelast_app by discriminate. apply Forall_app. split; assumption.
    + intros Ho. apply Forall_app. split; [exact Hm|exact (Hall Ho)].
  - destruct Hm as [Hpre Hall]. split; [exact Hpre|]. intros _. apply Hall. discriminate.
  - destruct Hm as [Hpre Hall]. split; [exact Hpre|].
    intros H. destruct (H e eq_refl).
Qed.

Ltac stops :=
  repeat first
    [ apply stops_ret | apply stops_return | apply stops_lift
    | apply stops_bind; [|intros ?]
    | match goal with
      | |- @Trace.stops_at_failure _ _ (if ?b then _ else _) => destruct b
      | |- @Trace.stops_at_failure _ _ (web_app.call _ ?c) => exact (stops_call c)
      end ].

(** X4: a failing call ends the request: whenever a logged call raised, it is
    the last call the handler made (nothing is retried and no later step
    runs). *)
Theorem failure_is_terminal (request : web_app.Request) (w : World)
    (pre post : list web_app.Event) (ev : web_app.Event) :
  (index request w).2 = pre ++ ev :: post ->
  web_app.ev_raised ev <> None ->
  post = [].
Proof.
  rewrite index_log. destruct (String.eqb _ _).
  2:{ intros H. destruct pre; discriminate H. }
  set (body := x ← retrieve (Spec.input_path_of request); write_outputs x).
  assert (Hs : Trace.stops_at_failure body).
  { apply stops_bind.
    - unfold web_app.retrieve. stops.
    - intros x. unfold web_app.write_outputs. stops. }
  destruct (Hs w) as [Hpre _]. intros Hlog Hev. rewrite Hlog in Hpre.
  destruct post as [|p post]; [reflexivity|]. exfalso.
  rewrite removelast_app in Hpre by discriminate.
  apply Forall_app in Hpre as [_ Hpre]. cbn [removelast] in Hpre.
  apply Forall_cons in Hpre as [Hok _]. exact (Hev Hok).
Qed.

(** *** The page with token counts *)

Lemma write_outputs_returns (x : string) (w w' : World)
    (page : web_app.Response) (log : list web_app.Event) :
  write_outputs x w = (web_app.Return page, w', log) ->
  exists compressed_text uncompressed_text compressed_count uncompressed_count,
    page = web_app.render_template_string
             (Some x) (Some uncompressed_count) (Some compressed_count)
    /\ log = Trace.writer_calls x compressed_text uncompressed_text.
Proof.
  unfold web_app.write_outputs, mbind, web_app.M_bind, web_app.call, web_app.return_.
  intros H.
  repeat match type of H with
         | context [collaborators ?c ?w0] =>
             destruct (collaborators c w0) as [[?|?] ?]; cbv beta iota zeta in H;
             [|discriminate H]
         end.
  injection H as <- <- <-. do 4 eexists. split; reflexivity.
Qed.

(** The pages [retrieve] returns by itself carry no token count. *)
Lemma retrieve_returns (s : string) (w w' : World)
    (page : web_app.Response) (log : list web_app.Event) :
  retrieve s w = (web_app.Return page, w', log) ->
  web_app.uncompressed_token_count page = None.
Proof.
  unfold web_app.retrieve, mbind, web_app.M_bind, web_app.lift, web_app.call,
    web_app.return_, mret, web_app.M_ret.
  intros H.
  repeat match type of H with
         | context [match ?x with _ => _ end] =>
             lazymatch x with
             | context [match _ with _ => _ end] => fail
             | _ => destruct x; cbv beta iota zeta in H; try discriminate H
             end
         end;
  injection H as <- _ _; reflexivity.
Qed.


(** *** The HTTP branch *)

(** [retrieve] on an HTTP or HTTPS URL without the marker that passes the
    safety check. *)
Lemma retrieve_http_safe (s : string) (parsed : urllib.ParseResult) (w : World) :
  urllib.urlparse s = Returns parsed ->
  Str.contains "github.com" s = false ->
  bool_decide (urllib.scheme parsed ∈ ["http"; "https"]) = true ->
  web_app._is_safe_url s = Returns true ->
  retrieve s w =
  (if Str.contains "youtube.com" s || Str.contains "youtu.be" s
   then call (web_app.Retrieve web_app.fetch_youtube_transcript s)
   else if Str.contains "arxiv.org" s
   then call (web_app.Retrieve web_app.process_arxiv_pdf s)
   else
     crawl_result ← call (web_app.crawl_and_extract_text s 2 true true);
     _ ← call (web_app.write_file "processed_urls.txt"
                 (Str.join web_app.newline (web_app.processed_urls crawl_result)));
     mret (web_app.content crawl_result)) w.
Proof.
  intros Hp Hg Hh Hs. unfold web_app.retrieve.
  rewrite Hp, bind_lift_returns, Hg, Hh, Hs, bind_lift_returns. reflexivity.
Qed.

(** X6: an HTTP or HTTPS URL without the marker [github.com] that passes the
    safety check is handled by exactly one of three routes, tested in this
    order: the transcript backend when it contains [youtube.com] or
    [youtu.be]; else the arXiv backend when it contains [arxiv.org]; else
    the crawler, with depth 2, PDFs included and EPUBs ignored, whose
    visited URLs are then written one per line to [processed_urls.txt]
    before the crawled text goes to the artifact writer. *)
Theorem http_dispatch (request : web_app.Request) (w : World) :
  web_app.method request = "POST" ->
  Str.contains "github.com" (Spec.input_path_of request) = false ->
  Spec.is_http_url (Spec.input_path_of request) = true ->
  web_app._is_safe_url (Spec.input_path_of request) = Returns true ->
  index request w =
  (if Str.contains "youtube.com" (Spec.input_path_of request)
      || Str.contains "youtu.be" (Spec.input_path_of request)
   then Spec.served_by collaborators web_app.fetch_youtube_transcript
          (Spec.input_path_of request)
   else if Str.contains "arxiv.org" (Spec.input_path_of request)
   then Spec.served_by collaborators web_app.process_arxiv_pdf
          (Spec.input_path_of request)
   else Trace.crawled collaborators (Spec.input_path_of request)) w.
Proof.
  intros Hm Hg Hh Hs. rewrite index_post by assumption.
  set (s := Spec.input_path_of request) in *.
  unfold Spec.is_http_url in Hh.
  destruct (urllib.urlparse s) as [parsed|e] eqn:Hp; [|discriminate Hh].
  pose proof (retrieve_http_safe _ _ w Hp Hg Hh Hs) as Hr.
  destruct (_ || _); [|destruct (Str.contains "arxiv.org" s)];
    unfold Spec.served_by, Trace.crawled; apply handler_ext; exact Hr.
Qed.

(** X7: an input with the marker whose URL has no network location (the
    repository written without a scheme, as in [github.com/owner/repo]) is
    answered with the security rejection and reaches no backend: the URL
    has no hostname, so the safety check fails. *)
Theorem marker_without_host_rejected
    (request : web_app.Request) (w : World) (parsed : urllib.ParseResult) :
  web_app.method request = "POST" ->
  Str.contains "github.com" (Spec.input_path_of request) = true ->
  urllib.urlparse (Spec.input_path_of request) = Returns parsed ->
  urllib.netloc parsed = EmptyString ->
  index request w = (Returns web_app.security_rejection, w, []).
Proof.
  intros Hm Hg Hp Hn. rewrite index_post by assumption.
  apply handler_stops_early.
  assert (Hs : web_app._is_safe_url (Spec.input_path_of request) = Returns false).
  { rewrite is_safe_url_unfold, Hp. unfold urllib.hostname. rewrite Hn. reflexivity. }
  rewrite (retrieve_github _ _ _ _ _ Hp Hg Hs). reflexivity.
Qed.

(** *** Blank input and surrounding whitespace *)

Lemma lstrip_all (p : ascii -> bool) (s : string) :
  Str.all_chars p s = true -> Str.lstrip_by p s = EmptyString.
Proof.
  induction s as [|c s IH]; [reflexivity|]. cbn [Str.all_chars Str.lstrip_by].
  intros [Hc Hs]%andb_true_iff. rewrite Hc. exact (IH Hs).
Qed.

Lemma rstrip_rstrip (p : ascii -> bool) (s : string) :
  Str.rstrip_by p (Str.rstrip_by p s) = Str.rstrip_by p s.
Proof.
  induction s as [|c s IH]; [reflexivity|]. cbn [Str.rstrip_by].
  destruct (Str.rstrip_by p s) as [|c' r] eqn:Hr.
  - destruct (p c) eqn:Hc; [reflexivity|]. cbn [Str.rstrip_by]. rewrite Hc. reflexivity.
  - cbn [Str.rstrip_by] in *. rewrite IH. reflexivity.
Qed.

(** Stripping on the right keeps a first character that is not stripped. *)
Lemma rstrip_head (p : ascii -> bool) (c : ascii) (s : string) :
  p c = false -> exists r, Str.rstrip_by p (String c s) = String c r.
Proof.
  intros Hc. cbn [Str.rstrip_by].
  destruct (Str.rstrip_by p s); [rewrite Hc|]; eauto.
Qed.

Lemma lstrip_head (p : ascii -> bool) (s : string) :
  Str.lstrip_by p s = EmptyString
  \/ exists c r, Str.lstrip_by p s = String c r /\ p c = false.
Proof.
  induction s as [|c s IH]; [left; reflexivity|]. cbn [Str.lstrip_by].
  destruct (p c) eqn:Hc; [exact IH|]. right. eauto.
Qed.

Lemma strip_strip (s : string) : Str.strip (Str.strip s) = Str.strip s.
Proof.
  unfold Str.strip.
  destruct (lstrip_head Str.is_space s) as [->|(c & r & -> & Hc)]; [reflexivity|].
  destruct (rstrip_head Str.is_space c r Hc) as [r' Hr]. rewrite Hr.
  cbn [Str.lstrip_by]. rewrite Hc, <- Hr. apply rstrip_rstrip.
Qed.

(** X8: a POST with no [input_path] field, an empty one or one made of
    whitespace only is answered with the local-path rejection; nothing is
    called. *)
Theorem blank_input_rejected (request : web_app.Request) (w : World) :
  web_app.method request = "POST" ->
  Str.all_chars Str.is_space
    (default EmptyString (web_app.form request !! "input_path")) = true ->
  index request w = (Returns web_app.local_path_rejection, w, []).
Proof.
  intros Hm Hb. rewrite index_post by assumption.
  apply handler_stops_early.
  unfold Spec.input_path_of, Str.strip. rewrite (lstrip_all _ _ Hb).
  reflexivity.
Qed.

(** X9: whitespace around the submitted text changes nothing: a request is
    handled exactly as the same request with the field already stripped. *)
Theorem surrounding_whitespace_ignored
    (request : web_app.Request) (raw : string) (w : World) :
  web_app.form request !! "input_path" = Some raw ->
  index request w =
  index {| web_app.method := web_app.method request;
           web_app.form := <["input_path" := Str.strip raw]> (web_app.form request);
           web_app.args := web_app.args request |} w.
Proof.
  intros Hf. unfold web_app.index, web_app.index_body.
  cbn [web_app.method web_app.form].
  rewrite Hf, lookup_insert_eq. cbn [default from_option id].
  rewrite strip_strip. reflexivity.
Qed.

End HandlerLog.

(** * Further properties of the download handler *)

Section DownloadMore.

Variable OUTPUT_DIR : string.
Variable fs : gmap string web_app.FsNode.

Abbreviation download := (web_app.download OUTPUT_DIR fs).

Lemma rpartition_absent (c : ascii) (s : string) :
  Str.has_char c s = false -> Str.rpartition c s = (EmptyString, false, s).
Proof.
  induction s as [|a s IH]; [reflexivity|]. cbn [Str.has_char Str.rpartition].
  intros [Ha Hs]%orb_false_iff. rewrite (IH Hs), Ha. reflexivity.
Qed.

Lemma rpartition_snoc (c : ascii) (d : string) :
  Str.rpartition c (d +:+ String c EmptyString) = (d, true, EmptyString).
Proof.
  induction d as [|a d IH].
  - change (EmptyString +:+ String c EmptyString) with (String c EmptyString).
    cbn [Str.rpartition]. rewrite Ascii.eqb_refl. reflexivity.
  - rewrite append_cons. cbn [Str.rpartition]. rewrite IH. reflexivity.
Qed.

(** Taking the last component twice is taking it once. *)
Lemma basename_basename (p : string) :
  os_path.basename (os_path.basename p) = os_path.basename p.
Proof.
  unfold os_path.basename at 1.
  rewrite (rpartition_absent _ _ (basename_no_slash p)). reflexivity.
Qed.

(** X10: directory components of the requested name play no part: asking for
    [some/dir/name] is answered exactly as asking for [name], whenever the
    name does not end in a slash. *)
Theorem download_by_basename (request : web_app.Request) (filename : string) :
  web_app.args request !! "filename" = Some filename ->
  os_path.basename filename <> EmptyString ->
  download request =
  download {| web_app.method := web_app.method request;
              web_app.form := web_app.form request;
              web_app.args :=
                <["filename" := os_path.basename filename]> (web_app.args request) |}.
Proof.
  intros Ha Hb.
  assert (Hne : filename <> EmptyString) by (intros ->; exact (Hb eq_refl)).
  rewrite (download_unfold _ _ _ _ Ha Hne).
  rewrite (download_unfold OUTPUT_DIR fs _ (os_path.basename filename)
             (lookup_insert_eq _ _ _) Hb).
  rewrite basename_basename. reflexivity.
Qed.

(** X11: whatever is requested, a file that is sent is a regular file with one
    of the two allow-listed names directly under the output directory, its
    content is what is on disk at that path, and it was looked at exactly
    twice (the existence test, then the read); a directory is never sent. *)
Theorem sent_file_is_allowed (request : web_app.Request)
    (path data : string) (log : list web_app.FsAccess) :
  download request = (web_app.send_file path data, log) ->
  exists name,
    name ∈ web_app.ALLOWED_DOWNLOAD_FILES
    /\ path = OUTPUT_DIR +:+ os_path.sep_after OUTPUT_DIR +:+ name
    /\ fs !! path = Some (web_app.RegularFile data)
    /\ log = [web_app.IsFile path; web_app.SendFile path].
Proof.
  unfold web_app.download.
  destruct (web_app.args request !! "filename") as [filename|]; [|discriminate].
  destruct (Str.is_empty filename); [discriminate|].
  case_bool_decide as Hb; [discriminate|].
  rewrite (join_allowed _ _ Hb).
  unfold web_app.isfile, web_app.file_data.
  destruct (fs !! _) as [[d|]|] eqn:Hf; cbn [negb]; try discriminate.
  intros [= <- <- <-]. exists (os_path.basename filename). auto.
Qed.

(** X12: a requested name that ends in a slash names no file: it is answered
    403 without a look at the disk. *)
Theorem download_directory_forbidden (request : web_app.Request) (dir : string) :
  web_app.args request !! "filename" = Some (dir +:+ "/") ->
  download request = (web_app.abort 403, []).
Proof.
  intros Ha. apply download_forbidden with (filename := dir +:+ "/").
  - exact Ha.
  - destruct dir; discriminate.
  - unfold os_path.basename. rewrite rpartition_snoc. cbn [snd].
    intros [H|H]%allowed_names; discriminate H.
Qed.

End DownloadMore.

(** * Further properties of the address safety check *)

Section AddressClasses.

(** Membership in a network is membership in an interval: with the mask
    [j] ones above [k] zeros, the masked address equals [q * 2^k] exactly
    for the addresses from [q * 2^k] to [(q + 1) * 2^k - 1]. *)
Lemma land_mask_range (j k q ip : Z) :
  0 <= j -> 0 <= k -> 0 <= ip < 2 ^ (j + k) ->
  (Z.land ip (Z.shiftl (Z.ones j) k) =? Z.shiftl q k)
  = (q * 2 ^ k <=? ip) && (ip <? (q + 1) * 2 ^ k).
Proof.
  intros Hj Hk Hip.
  rewrite land_shiftl_mask, Z.land_ones, Z.shiftr_div_pow2, !Z.shiftl_mul_pow2 by assumption.
  assert (HP : 0 < 2 ^ k) by (apply Z.pow_pos_nonneg; lia).
  rewrite Z.pow_add_r in Hip by assumption.
  pose proof (Z.div_mod ip (2 ^ k) ltac:(lia)) as Hdm.
  pose proof (Z.mod_pos_bound ip (2 ^ k) HP) as Hr.
  assert (Hd : 0 <= ip / 2 ^ k < 2 ^ j).
  { split; [apply Z.div_pos; lia|]. apply Z.div_lt_upper_bound; lia. }
  rewrite Z.mod_small by assumption.
  generalize dependent (ip / 2 ^ k). generalize dependent (ip mod 2 ^ k).
  generalize dependent (2 ^ k). intros P _ _ r Hr d Hdm _.
  destruct (Z.lt_trichotomy d q) as [Hlt|[->|Hgt]].
  - assert (P * (d + 1) <= P * q) by (apply Z.mul_le_mono_nonneg_l; lia).
    destruct (Z.eqb_spec (d * P) (q * P)) as [He|He]; [exfalso; nia|].
    destruct (Z.leb_spec (q * P) ip); [exfalso; lia|reflexivity].
  - rewrite Z.eqb_refl.
    destruct (Z.leb_spec (q * P) ip); [|exfalso; lia].
    destruct (Z.ltb_spec ip ((q + 1) * P)); [reflexivity|exfalso; lia].
  - assert (P * (q + 1) <= P * d) by (apply Z.mul_le_mono_nonneg_l; lia).
    destruct (Z.eqb_spec (d * P) (q * P)) as [He|He]; [exfalso; nia|].
    destruct (Z.ltb_spec ip ((q + 1) * P)); [exfalso; lia|].
    symmetry. apply andb_false_r.
Qed.

(** The same for a whole interval of addresses: when the interval from [lo]
    to [hi] lies inside the network the test is true on all of it, when it
    lies outside the test is false on all of it.  The side conditions are
    comparisons of constants, gathered in one boolean. *)
Lemma net_test_decided (j k q lo hi ip : Z) (v : bool) :
  lo <= ip -> ip <= hi ->
  (0 <=? j) && (0 <=? k) && (0 <=? lo) && (hi <? 2 ^ (j + k))
  && (if v then (q * 2 ^ k <=? lo) && (hi <? (q + 1) * 2 ^ k)
      else (hi <? q * 2 ^ k) || ((q + 1) * 2 ^ k <=? lo)) = true ->
  (Z.land ip (Z.shiftl (Z.ones j) k) =? Z.shiftl q k) = v.
Proof.
  intros Hlo Hhi.
  rewrite !andb_true_iff, !Z.leb_le, Z.ltb_lt. intros [[[[Hj Hk] H0] Hmax] Hv].
  rewrite land_mask_range by lia.
  generalize dependent (2 ^ (j + k)). generalize dependent (2 ^ k). intros P Hv M HM.
  destruct v.
  - apply andb_true_iff in Hv as [Ha%Z.leb_le Hb%Z.ltb_lt].
    apply andb_true_iff. split; [apply Z.leb_le|apply Z.ltb_lt]; lia.
  - apply orb_true_iff in Hv as [Ha%Z.ltb_lt|Hb%Z.leb_le].
    + apply andb_false_iff. left. apply Z.leb_gt. lia.
    + apply andb_false_iff. right. apply Z.ltb_ge. lia.
Qed.

(** Settles every membership test of [ip] in a constant network of width
    [bits], from the bounds [Hlo] and [Hhi] on [ip]. *)
Ltac decide_nets bits ip Hlo Hhi :=
  repeat match goal with
         | |- context [ipaddress.net_contains bits ?net ip] =>
             let a := eval vm_compute in (ipaddress.network_address net) in
             let p := eval vm_compute in (ipaddress.prefixlen net) in
             let k := eval vm_compute in (bits - p) in
             let q := eval vm_compute in (Z.shiftr a k) in
             change (ipaddress.net_contains bits net ip)
               with (Z.land ip (Z.shiftl (Z.ones p) k) =? Z.shiftl q k);
             first
               [ rewrite (net_test_decided p k q _ _ ip true Hlo Hhi)
                   by (vm_compute; reflexivity)
               | rewrite (net_test_decided p k q _ _ ip false Hlo Hhi)
                   by (vm_compute; reflexivity) ]
         end.

Ltac v4_flags ip Hlo Hhi :=
  cbv [ipaddress.is_private ipaddress.v4_is_private ipaddress.is_loopback
       ipaddress.is_link_local ipaddress.is_reserved ipaddress.in_any
       ipaddress._IPv4Constants._private_networks
       ipaddress._IPv4Constants._private_networks_exceptions
       ipaddress._IPv4Constants._loopback_network
       ipaddress._IPv4Constants._linklocal_network
       ipaddress._IPv4Constants._reserved_network];
  cbn [existsb]; decide_nets 32 ip Hlo Hhi; reflexivity.

Lemma v4_special_flagged (ip : Z) :
  Spec.v4 0 0 0 0 <= ip <= Spec.v4 0 255 255 255
  \/ Spec.v4 172 16 0 0 <= ip <= Spec.v4 172 31 255 255
  \/ Spec.v4 198 18 0 0 <= ip <= Spec.v4 198 19 255 255
  \/ Spec.v4 240 0 0 0 <= ip <= Spec.v4 255 255 255 255 ->
  ipaddress.is_private (ipaddress.IPv4Address ip)
  || ipaddress.is_loopback (ipaddress.IPv4Address ip)
  || ipaddress.is_link_local (ipaddress.IPv4Address ip)
  || ipaddress.is_reserved (ipaddress.IPv4Address ip) = true.
Proof.
  intros [[Hlo Hhi]|[[Hlo Hhi]|[[Hlo Hhi]|[Hlo Hhi]]]]; v4_flags ip Hlo Hhi.
Qed.

Lemma v4_shared_unflagged (ip : Z) :
  Spec.v4 100 64 0 0 <= ip <= Spec.v4 100 127 255 255
  \/ Spec.v4 224 0 0 0 <= ip <= Spec.v4 239 255 255 255 ->
  ipaddress.is_private (ipaddress.IPv4Address ip)
  || ipaddress.is_loopback (ipaddress.IPv4Address ip)
  || ipaddress.is_link_local (ipaddress.IPv4Address ip)
  || ipaddress.is_reserved (ipaddress.IPv4Address ip) = false.
Proof.
  intros [[Hlo Hhi]|[Hlo Hhi]]; v4_flags ip Hlo Hhi.
Qed.

(** The verdict on a hostname that is an IP literal: safe exactly when none
    of the four flags is set. *)
Lemma is_safe_url_ip_literal
    (url : string) (parsed : urllib.ParseResult) (hostname : string)
    (addr : ipaddress.IPAddress) :
  urllib.urlparse url = Returns parsed ->
  urllib.hostname parsed = Some hostname ->
  ipaddress.ip_address hostname = Returns addr ->
  web_app._is_safe_url url =
  Returns (negb (ipaddress.is_private addr || ipaddress.is_loopback addr
                 || ipaddress.is_link_local addr || ipaddress.is_reserved addr)).
Proof.
  intros Hp Hh Hip. rewrite is_safe_url_unfold, Hp, Hh.
  case_bool_decide as Hd; [|rewrite Hip; reflexivity].
  exfalso. apply elem_of_cons in Hd as [->|Hd]; [vm_compute in Hip; discriminate Hip|].
  apply elem_of_cons in Hd as [->|Hd]; [vm_compute in Hip; discriminate Hip|].
  inversion Hd.
Qed.

(** X13: beyond the four blocks of 127/8, 10/8, 169.254/16 and 192.168/16, the
    check also rejects the IPv4 literals of 0.0.0.0/8, 172.16.0.0/12 (the
    third private block), 198.18.0.0/15 and 240.0.0.0/4 up to the
    broadcast address. *)
Theorem special_ipv4_rejected
    (url : string) (parsed : urllib.ParseResult) (hostname : string) (ip : Z) :
  urllib.urlparse url = Returns parsed ->
  urllib.hostname parsed = Some hostname ->
  ipaddress.ip_address hostname = Returns (ipaddress.IPv4Address ip) ->
  Spec.v4 0 0 0 0 <= ip <= Spec.v4 0 255 255 255
  \/ Spec.v4 172 16 0 0 <= ip <= Spec.v4 172 31 255 255
  \/ Spec.v4 198 18 0 0 <= ip <= Spec.v4 198 19 255 255
  \/ Spec.v4 240 0 0 0 <= ip <= Spec.v4 255 255 255 255 ->
  web_app._is_safe_url url = Returns false.
Proof.
  intros Hp Hh Hip Hblock.
  rewrite (is_safe_url_ip_literal _ _ _ _ Hp Hh Hip), (v4_special_flagged _ Hblock).
  reflexivity.
Qed.

(** X14: two address classes pass the check although they are not ordinary
    public hosts: the shared address space 100.64.0.0/10 and the multicast
    block 224.0.0.0/4 set none of the four flags, so a URL with such an
    IPv4 literal is let through. *)
Theorem shared_and_multicast_pass
    (url : string) (parsed : urllib.ParseResult) (hostname : string) (ip : Z) :
  urllib.urlparse url = Returns parsed ->
  urllib.hostname parsed = Some hostname ->
  ipaddress.ip_address hostname = Returns (ipaddress.IPv4Address ip) ->
  Spec.v4 100 64 0 0 <= ip <= Spec.v4 100 127 255 255
  \/ Spec.v4 224 0 0 0 <= ip <= Spec.v4 239 255 255 255 ->
  web_app._is_safe_url url = Returns true.
Proof.
  intros Hp Hh Hip Hblock.
  rewrite (is_safe_url_ip_literal _ _ _ _ Hp Hh Hip), (v4_shared_unflagged _ Hblock).
  reflexivity.
Qed.

Lemma denied_block_private (ip : Z) :
  Spec.in_denied_block ip -> ipaddress.v4_is_private ip = true.
Proof.
  intros [[Hlo Hhi]|[[Hlo Hhi]|[[Hlo Hhi]|[Hlo Hhi]]]];
    cbv [ipaddress.v4_is_private ipaddress.in_any
         ipaddress._IPv4Constants._private_networks
         ipaddress._IPv4Constants._private_networks_exceptions];
    cbn [existsb]; decide_nets 32 ip Hlo Hhi; reflexivity.
Qed.

Lemma ipv4_mapped_of (ip4 : Z) :
  0 <= ip4 < 2 ^ 32 -> ipaddress.ipv4_mapped (Trace.mapped ip4) = Some ip4.
Proof.
  intros H. unfold ipaddress.ipv4_mapped, Trace.mapped.
  rewrite Z.shiftr_div_pow2 by lia.
  replace ((65535 * 2 ^ 32 + ip4) / 2 ^ 32) with 65535
    by (apply Z.div_unique with (r := ip4); lia).
  cbn [Z.eqb Pos.eqb negb]. change 4294967295 with (Z.ones 32).
  rewrite Z.land_ones by lia. f_equal.
  symmetry. apply Z.mod_unique with (q := 65535); lia.
Qed.

(** X15: writing a denied IPv4 address as an IPv4-mapped IPv6 literal,
    [[::ffff:a.b.c.d]], does not get it past the check. *)
Theorem mapped_ipv4_rejected
    (url : string) (parsed : urllib.ParseResult) (hostname : string)
    (ip4 : Z) (scope_id : option string) :
  urllib.urlparse url = Returns parsed ->
  urllib.hostname parsed = Some hostname ->
  ipaddress.ip_address hostname
  = Returns (ipaddress.IPv6Address (Trace.mapped ip4) scope_id) ->
  Spec.in_denied_block ip4 ->
  web_app._is_safe_url url = Returns false.
Proof.
  intros Hp Hh Hip Hblock.
  rewrite (is_safe_url_ip_literal _ _ _ _ Hp Hh Hip).
  assert (Hr : 0 <= ip4 < 2 ^ 32)
    by (unfold Spec.in_denied_block, Spec.v4 in Hblock; lia).
  unfold ipaddress.is_private. rewrite (ipv4_mapped_of _ Hr), (denied_block_private _ Hblock).
  reflexivity.
Qed.

Lemma unique_local_private (ip : Z) (scope_id : option string) :
  64512 * 2 ^ 112 <= ip < 65024 * 2 ^ 112 ->
  ipaddress.is_private (ipaddress.IPv6Address ip scope_id) = true.
Proof.
  intros [Hlo Hhi%Z.lt_le_pred].
  unfold ipaddress.is_private, ipaddress.ipv4_mapped.
  rewrite Z.shiftr_div_pow2 by discriminate.
  destruct (Z.eqb_spec (ip / 2 ^ 32) 65535) as [He|_].
  { exfalso.
    assert (Hd : 65536 <= ip / 2 ^ 32).
    { apply Z.div_le_lower_bound; [reflexivity|].
      etransitivity; [|exact Hlo]. vm_compute. discriminate. }
    rewrite He in Hd. vm_compute in Hd. exact (Hd eq_refl). }
  cbv [negb ipaddress.in_any ipaddress._IPv6Constants._private_networks
       ipaddress._IPv6Constants._private_networks_exceptions].
  cbn [existsb]. decide_nets 128 ip Hlo Hhi. reflexivity.
Qed.

Lemma link_local_v6 (ip : Z) (scope_id : option string) :
  65152 * 2 ^ 112 <= ip < 65216 * 2 ^ 112 ->
  ipaddress.is_link_local (ipaddress.IPv6Address ip scope_id) = true.
Proof.
  intros [Hlo Hhi%Z.lt_le_pred].
  cbv [ipaddress.is_link_local ipaddress._IPv6Constants._linklocal_network].
  decide_nets 128 ip Hlo Hhi. reflexivity.
Qed.

(** X16: the IPv6 counterparts of the denied blocks are rejected as well: the
    loopback address [::1], the link-local block fe80::/10 and the unique
    local block fc00::/7, with or without a zone identifier. *)
Theorem internal_ipv6_rejected
    (url : string) (parsed : urllib.ParseResult) (hostname : string)
    (ip : Z) (scope_id : option string) :
  urllib.urlparse url = Returns parsed ->
  urllib.hostname parsed = Some hostname ->
  ipaddress.ip_address hostname = Returns (ipaddress.IPv6Address ip scope_id) ->
  ip = 1
  \/ 65152 * 2 ^ 112 <= ip < 65216 * 2 ^ 112
  \/ 64512 * 2 ^ 112 <= ip < 65024 * 2 ^ 112 ->
  web_app._is_safe_url url = Returns false.
Proof.
  intros Hp Hh Hip Hblock.
  rewrite (is_safe_url_ip_literal _ _ _ _ Hp Hh Hip).
  destruct Hblock as [->|[H|H]].
  - reflexivity.
  - rewrite (link_local_v6 _ _ H), !orb_true_r. reflexivity.
  - rewrite (unique_local_private _ _ H). reflexivity.
Qed.

End AddressClasses.

(** ** More worked requests *)

Section WorkedMore.

Abbreviation coll := Scenario.collaborators.
Abbreviation serve := (web_app.download Scenario.OUTPUT_DIR Scenario.disk).

Lemma fetch_is_gated_example :
  web_app._is_safe_url "https://github.com/o/r" = Returns true.
Proof.
  destruct (fetch_is_gated coll (Scenario.post "https://github.com/o/r") ∅
              (Trace.ok (web_app.Retrieve web_app.process_github_repo
                           "https://github.com/o/r")))
    as [_ [Hd|Hs]].
  - vm_compute. apply list_elem_of_here.
  - discriminate Hd.
  - exact Hs.
Defined.

Lemma paths_are_fixed_example :
  "processed_urls.txt" ∈ Trace.OUTPUT_NAMES.
Proof.
  apply (paths_are_fixed coll (Scenario.post "https://example.com/") ∅
           (Trace.ok (web_app.write_file "processed_urls.txt"
                        (Str.join web_app.newline
                           ["https://example.com/"; "https://example.com/about"])))).
  - vm_compute. apply list_elem_of_further, list_elem_of_here.
  - apply list_elem_of_here.
Defined.

(** With the failing token counter the request stops at the first count:
    four calls returned before it and none follows. *)
Lemma failure_is_terminal_example :
  (web_app.index Outage.collaborators (Scenario.post "12345678") ∅).2
  = [ Trace.ok (web_app.Retrieve web_app.process_doi_or_pmid "12345678");
      Trace.ok (web_app.write_file "uncompressed_output.txt" "Text Of 12345678");
      Trace.ok (web_app.preprocess_text "uncompressed_output.txt" "compressed_output.txt");
      Trace.ok (web_app.safe_file_read "compressed_output.txt") ]
    ++ {| web_app.ev_call := web_app.get_token_count "text of 12345678";
          web_app.ev_raised := Some (OtherException "tokenizer unavailable") |}
    :: []
  /\ @nil web_app.Event = [].
Proof.
  assert (H : (web_app.index Outage.collaborators (Scenario.post "12345678") ∅).2
    = [ Trace.ok (web_app.Retrieve web_app.process_doi_or_pmid "12345678");
        Trace.ok (web_app.write_file "uncompressed_output.txt" "Text Of 12345678");
        Trace.ok (web_app.preprocess_text "uncompressed_output.txt" "compressed_output.txt");
        Trace.ok (web_app.safe_file_read "compressed_output.txt") ]
      ++ {| web_app.ev_call := web_app.get_token_count "text of 12345678";
            web_app.ev_raised := Some (OtherException "tokenizer unavailable") |}
      :: []) by (vm_compute; reflexivity).
  split; [exact H|].
  apply (failure_is_terminal Outage.collaborators _ _ _ _ _ H). discriminate.
Defined.


(** A video URL that also mentions arXiv goes to the transcript backend;
    an arXiv URL to the arXiv backend; any other page to the crawler. *)
Lemma http_dispatch_example :
  web_app.index coll (Scenario.post "https://youtu.be/x?ref=arxiv.org") ∅
  = Spec.served_by coll web_app.fetch_youtube_transcript
      "https://youtu.be/x?ref=arxiv.org" ∅
  /\ web_app.index coll (Scenario.post "https://arxiv.org/abs/1706.03762") ∅
     = Spec.served_by coll web_app.process_arxiv_pdf "https://arxiv.org/abs/1706.03762" ∅
  /\ web_app.index coll (Scenario.post "https://example.com/docs") ∅
     = Trace.crawled coll "https://example.com/docs" ∅.
Proof.
  repeat apply conj.
  - apply (http_dispatch coll (Scenario.post "https://youtu.be/x?ref=arxiv.org") ∅);
      vm_compute; reflexivity.
  - apply (http_dispatch coll (Scenario.post "https://arxiv.org/abs/1706.03762") ∅);
      vm_compute; reflexivity.
  - apply (http_dispatch coll (Scenario.post "https://example.com/docs") ∅);
      vm_compute; reflexivity.
Defined.

Lemma marker_without_host_rejected_example :
  web_app.index coll (Scenario.post "github.com/jimmc414/onefilellm") ∅
  = (Returns web_app.security_rejection, ∅, []).
Proof.
  apply (marker_without_host_rejected coll
           (Scenario.post "github.com/jimmc414/onefilellm") ∅
           {| urllib.scheme := EmptyString; urllib.netloc := EmptyString |});
    vm_compute; reflexivity.
Defined.

Lemma blank_input_rejected_example :
  web_app.index coll (Scenario.post "   ") ∅
  = (Returns web_app.local_path_rejection, ∅, [])
  /\ web_app.index coll
       {| web_app.method := "POST"; web_app.form := ∅; web_app.args := ∅ |} ∅
     = (Returns web_app.local_path_rejection, ∅, []).
Proof.
  split.
  - apply (blank_input_rejected coll (Scenario.post "   ") ∅); reflexivity.
  - apply (blank_input_rejected coll
             {| web_app.method := "POST"; web_app.form := ∅; web_app.args := ∅ |} ∅);
      reflexivity.
Defined.

Lemma surrounding_whitespace_ignored_example :
  web_app.index coll (Scenario.post "  12345678  ") ∅
  = web_app.index coll (Scenario.post "12345678") ∅.
Proof.
  exact (surrounding_whitespace_ignored coll (Scenario.post "  12345678  ")
           "  12345678  " ∅ eq_refl).
Defined.

Lemma download_by_basename_example :
  serve (Scenario.get_download "old/../uncompressed_output.txt")
  = serve (Scenario.get_download "uncompressed_output.txt").
Proof.
  exact (download_by_basename Scenario.OUTPUT_DIR Scenario.disk
           (Scenario.get_download "old/../uncompressed_output.txt")
           "old/../uncompressed_output.txt" eq_refl ltac:(discriminate)).
Defined.

Lemma sent_file_is_allowed_example :
  exists name,
    name ∈ web_app.ALLOWED_DOWNLOAD_FILES
    /\ "/srv/onefilellm/uncompressed_output.txt"
       = Scenario.OUTPUT_DIR +:+ os_path.sep_after Scenario.OUTPUT_DIR +:+ name
    /\ Scenario.disk !! "/srv/onefilellm/uncompressed_output.txt"
       = Some (web_app.RegularFile "Text Of Repo")
    /\ [web_app.IsFile "/srv/onefilellm/uncompressed_output.txt";
        web_app.SendFile "/srv/onefilellm/uncompressed_output.txt"]
       = [web_app.IsFile "/srv/onefilellm/uncompressed_output.txt";
          web_app.SendFile "/srv/onefilellm/uncompressed_output.txt"].
Proof.
  apply (sent_file_is_allowed Scenario.OUTPUT_DIR Scenario.disk
           (Scenario.get_download "x/uncompressed_output.txt")).
  vm_compute. reflexivity.
Defined.

Lemma download_directory_forbidden_example :
  serve (Scenario.get_download "uncompressed_output.txt/") = (web_app.abort 403, []).
Proof.
  apply (download_directory_forbidden Scenario.OUTPUT_DIR Scenario.disk
           (Scenario.get_download "uncompressed_output.txt/")
           "uncompressed_output.txt").
  reflexivity.
Defined.

Lemma special_ipv4_rejected_example :
  web_app._is_safe_url "http://172.16.0.1/admin" = Returns false
  /\ web_app._is_safe_url "http://0.0.0.0:8000/" = Returns false.
Proof.
  split.
  - eapply special_ipv4_rejected; [vm_compute; reflexivity..|].
    right. left. vm_compute. split; discriminate.
  - eapply special_ipv4_rejected; [vm_compute; reflexivity..|].
    left. vm_compute. split; discriminate.
Defined.

Lemma shared_and_multicast_pass_example :
  web_app._is_safe_url "http://100.64.0.1/" = Returns true
  /\ web_app._is_safe_url "http://224.0.0.251/" = Returns true.
Proof.
  split.
  - eapply shared_and_multicast_pass; [vm_compute; reflexivity..|].
    left. vm_compute. split; discriminate.
  - eapply shared_and_multicast_pass; [vm_compute; reflexivity..|].
    right. vm_compute. split; discriminate.
Defined.

Lemma mapped_ipv4_rejected_example :
  web_app._is_safe_url "http://[::ffff:10.0.0.1]/" = Returns false.
Proof.
  apply (mapped_ipv4_rejected "http://[::ffff:10.0.0.1]/"
           {| urllib.scheme := "http"; urllib.netloc := "[::ffff:10.0.0.1]" |}
           "::ffff:10.0.0.1" (Spec.v4 10 0 0 1) None).
  - vm_compute. reflexivity.
  - vm_compute. reflexivity.
  - vm_compute. reflexivity.
  - right. left. vm_compute. split; discriminate.
Defined.

Lemma internal_ipv6_rejected_example :
  web_app._is_safe_url "http://[::1]:8080/" = Returns false
  /\ web_app._is_safe_url "http://[fe80::1%eth0]/" = Returns false
  /\ web_app._is_safe_url "http://[fd12:3456::1]/" = Returns false.
Proof.
  repeat apply conj.
  - eapply internal_ipv6_rejected; [vm_compute; reflexivity..|].
    left. reflexivity.
  - eapply internal_ipv6_rejected; [vm_compute; reflexivity..|].
    right. left. vm_compute. split; [discriminate|reflexivity].
  - eapply internal_ipv6_rejected; [vm_compute; reflexivity..|].
    right. right. vm_compute. split; [discriminate|reflexivity].
Defined.

End WorkedMore.
